(** * Push-notification server: registry, dispatch, conditional rules

    A shallow embedding of the request handlers of [server.js] (the Express
    application storing Web Push subscriptions and relaying notifications) and
    of [getOneSignalStatus] from [src/utils/oneSignal.ts], followed by the
    properties the specification states about them.

    Conventions of the embedding.
    - The module-level variable [subscriptions] is threaded explicitly: every
      handler takes the registry and returns the new one.
    - The outside world (the Web Push transport, the OneSignal REST endpoint,
      the clock) is an oracle passed to the handler; the handler also returns
      the list of calls it made, so that "nothing was sent" is a statement
      about that list.
    - [res.json(obj)] / [res.status(n).json(obj)] become a [Response] holding
      the status and the JSON value; a property whose value is [undefined] is
      left out, as the serialisation does.
    - A handler is modelled for one request in isolation (no interleaving of
      other requests at its [await] points). *)

From Stdlib Require Import QArith DecimalString.
From stdpp Require Import base list strings.

#[local] Set Warnings "-register-all".

(** ** JavaScript values *)

Module Js.

(** A JS number: a finite double is a rational, and comparing two doubles is
    comparing these rationals; the three special values are kept apart. *)
Inductive number :=
| Finite (q : Q)
| PosInfinity
| NegInfinity
| NaN.

Definition of_Z (z : Z) : number := Finite (inject_Z z).
Definition of_nat (n : nat) : number := of_Z (Z.of_nat n).

(** The abstract relational comparison on numbers: [None] is its
    [undefined] answer (an operand is NaN). *)
Definition IsLessThan (x y : number) : option bool :=
  match x, y with
  | NaN, _ | _, NaN => None
  | Finite a, Finite b => Some (negb (Qle_bool b a))
  | PosInfinity, _ => Some false
  | _, PosInfinity => Some true
  | _, NegInfinity => Some false
  | NegInfinity, _ => Some true
  end.

(** [x < y], [x >= y] and [x <= y] as the language defines them. *)
Definition lt (x y : number) : bool :=
  match IsLessThan x y with Some true => true | _ => false end.
Definition ge (x y : number) : bool :=
  match IsLessThan x y with Some false => true | _ => false end.
Definition le (x y : number) : bool :=
  match IsLessThan y x with Some false => true | _ => false end.

(** JSON values, as parsed from a request and serialised into a response.
    An object keeps its properties in insertion order. *)
Inductive Json :=
| JNull
| JBool (b : bool)
| JNum (n : number)
| JStr (s : string)
| JArr (items : list Json)
| JObj (props : list (string * Json)).

Definition JInt (z : Z) : Json := JNum (of_Z z).
Definition JNat (n : nat) : Json := JNum (of_nat n).

Fixpoint assoc (k : string) (props : list (string * Json)) : option Json :=
  match props with
  | [] => None
  | (k', v) :: rest => if String.eqb k' k then Some v else assoc k rest
  end.

(** [obj.k]: [None] stands for [undefined]. *)
Definition get (k : string) (obj : Json) : option Json :=
  match obj with
  | JObj props => assoc k props
  | _ => None
  end.

(** [obj[k] = v] on an object's property list: an existing property keeps
    its place, a new one goes last. *)
Fixpoint set_prop (k : string) (v : Json) (props : list (string * Json))
  : list (string * Json) :=
  match props with
  | [] => [(k, v)]
  | (k', v') :: rest =>
      if String.eqb k' k then (k, v) :: rest else (k', v') :: set_prop k v rest
  end.

(** [{ ...base, ...extra }] *)
Definition spread (base extra : list (string * Json)) : list (string * Json) :=
  fold_left (fun acc kv => set_prop kv.1 kv.2 acc) extra base.

(** A property that is written only when its value is defined. *)
Definition opt_prop (k : string) (v : option Json) : list (string * Json) :=
  match v with
  | Some j => [(k, j)]
  | None => []
  end.

(** [arr[i]] for an integer [i]: [None] stands for [undefined], which is
    what an index outside the array reads. *)
Definition at_index {A} (arr : list A) (i : Z) : option A :=
  if decide (0 <= i)%Z then arr !! Z.to_nat i else None.

(** Truthiness. *)
Definition truthy_string (s : string) : bool := negb (String.eqb s "").
Definition truthy_opt (o : option string) : bool :=
  match o with
  | Some s => truthy_string s
  | None => false
  end.
Definition truthy (j : Json) : bool :=
  match j with
  | JNull => false
  | JBool b => b
  | JNum (Finite q) => negb (Qeq_bool q 0)
  | JNum NaN => false
  | JNum _ => true
  | JStr s => truthy_string s
  | JArr _ | JObj _ => true
  end.

(** [o || d] for an optional string. *)
Definition or_default (o : option string) (d : string) : string :=
  match o with
  | Some s => if truthy_string s then s else d
  | None => d
  end.

(** Decimal rendering of an integer, as a template literal prints a count
    or a millisecond clock reading. *)
Definition nat_to_string (n : nat) : string :=
  NilZero.string_of_uint (Nat.to_uint n).
Definition Z_to_string (z : Z) : string :=
  NilZero.string_of_int (Z.to_int z).

(** What the language runtime provides and the handlers only call: string
    conversion of a value inside a template literal, [JSON.stringify], and
    the two case conversions of [String.prototype]. *)
Record Runtime := {
  ToString : Json -> string;
  JSON_stringify : Json -> string;
  toUpperCase : string -> string;
  toLowerCase : string -> string
}.

End Js.

Import Js.

(** ** The HTTP surface *)

Record Response := { status : nat; content : Json }.

(** [res.json(obj)] *)
Definition json (obj : list (string * Json)) : Response :=
  {| status := 200; content := JObj obj |}.

(** [res.status(code).json(obj)] *)
Definition status_json (code : nat) (obj : list (string * Json)) : Response :=
  {| status := code; content := JObj obj |}.

(** ** Subscription registry ([server.js], first revision) *)

Module Registry.

(** A push subscription as the browser serialises it. Only [endpoint] is
    read by the registry; an absent endpoint is the empty string, which the
    validation treats alike (both are falsy). *)
Record Subscription := {
  endpoint : string;
  expirationTime : option Z;
  keys : option (list (string * string))
}.

Definition subscription_json (s : Subscription) : Json :=
  JObj ([("endpoint", JStr (endpoint s))]
        ++ [("expirationTime",
             match expirationTime s with Some t => JInt t | None => JNull end)]
        ++ opt_prop "keys"
             ((fun ks => JObj (prod_map id JStr <$> ks)) <$> keys s)).

(** [let subscriptions = []] *)
Abbreviation Subscriptions := (list Subscription).

(** [app.post('/api/subscribe')]; the argument is [req.body.subscription],
    [None] when the body has none. *)
Definition subscribe (subscription : option Subscription)
    (subscriptions : Subscriptions) : Response * Subscriptions :=
  match subscription with
  | None =>
      (status_json 400 [("error", JStr "Invalid subscription data")],
       subscriptions)
  | Some subscription =>
      if negb (truthy_string (endpoint subscription)) then
        (status_json 400 [("error", JStr "Invalid subscription data");
                          ("received", subscription_json subscription)],
         subscriptions)
      else
        let existingIndex :=
          fst <$> list_find (fun sub => endpoint sub = endpoint subscription)
                            subscriptions in
        let subscriptions :=
          match existingIndex with
          | Some existingIndex =>
              <[existingIndex := subscription]> subscriptions
          | None => subscriptions ++ [subscription]
          end in
        (json [("success", JBool true);
               ("message", JStr "Subscription saved successfully");
               ("totalSubscriptions", JNat (length subscriptions))],
         subscriptions)
  end.

(** [endpoint.substring(0, 50) + '...']; an endpoint is a URL, so that its
    characters are the bytes of the string. *)
Definition redact (s : Subscription) : string :=
  String.substring 0 50 (endpoint s) +:+ "...".

(** [app.get('/api/subscriptions')] *)
Definition list_subscriptions (subscriptions : Subscriptions) : Response :=
  json [("count", JNat (length subscriptions));
        ("subscriptions",
         JArr ((fun sub =>
                  JObj [("endpoint", JStr (redact sub));
                        ("keys",
                         JArr (match keys sub with
                               | Some ks => (fun kv => JStr kv.1) <$> ks
                               | None => []
                               end))]) <$> subscriptions))].

(** [app.delete('/api/subscriptions')] *)
Definition clear_subscriptions (subscriptions : Subscriptions)
  : Response * Subscriptions :=
  let count := length subscriptions in
  let subscriptions : Subscriptions := [] in
  (json [("success", JBool true);
         ("message",
          JStr ("Cleared " +:+ nat_to_string count +:+ " subscriptions"))],
   subscriptions).

End Registry.

Import Registry.

(** ** Notification dispatch ([app.post('/api/send-notification')]) *)

Module Dispatch.

(** What [webpush.sendNotification] does with one call: the promise
    resolves with a status code, or rejects with an error that carries a
    message and, for a [WebPushError], the status code of the push service. *)
Inductive SendOutcome :=
| Sent (statusCode : nat)
| Failed (message : string) (statusCode : option nat).

(** The body of the request. *)
Record Notification := {
  title : option string;
  body : option string;
  icon : option string;
  badge : option string;
  tag : option string;
  data : list (string * Json)
}.

(** The world around one request: the [n]-th reading of [Date.now()] and
    the outcome of the [n]-th call of [webpush.sendNotification], given the
    subscription and the payload handed to it. *)
Record World := {
  Date_now : nat -> Z;
  sendNotification : nat -> Subscription -> string -> SendOutcome
}.

(** The variables of the [for] loop; [calls] records, oldest first, the
    subscriptions handed to the transport. *)
Record Loop := {
  subscriptions : Subscriptions;
  i : Z;
  results : list Json;
  successCount : nat;
  failureCount : nat;
  calls : list Subscription
}.

Section Handler.

Variable rt : Runtime.
Variable world : World.

Definition payload (req : Notification) : string :=
  let clock := if truthy_opt (tag req) then 0 else 1 in
  JSON_stringify rt
    (JObj [("title", JStr (or_default (title req) "🚀 React Push Test"));
           ("body",
            JStr (or_default (body req) "Real push notification from server!"));
           ("icon", JStr (or_default (icon req) "/vite.svg"));
           ("badge", JStr (or_default (badge req) "/vite.svg"));
           ("tag",
            JStr (or_default (tag req)
                    ("server-push-" +:+ Z_to_string (Date_now world 0))));
           ("data",
            JObj (spread [("url", JStr "/");
                          ("timestamp", JInt (Date_now world clock));
                          ("source", JStr "node-server")]
                         (data req)));
           ("requireInteraction", JBool false);
           ("silent", JBool false);
           ("vibrate", JArr [JNat 200; JNat 100; JNat 200]);
           ("actions",
            JArr [JObj [("action", JStr "open");
                        ("title", JStr "Open App");
                        ("icon", JStr "/vite.svg")];
                  JObj [("action", JStr "dismiss");
                        ("title", JStr "Dismiss")]])]).

(** The entry pushed onto [results] for one target. *)
Definition result_entry (subscription : Subscription) (o : SendOutcome)
  : Json :=
  match o with
  | Sent statusCode =>
      JObj [("subscription", JStr (redact subscription));
            ("success", JBool true);
            ("statusCode", JNat statusCode)]
  | Failed message statusCode =>
      JObj ([("subscription", JStr (redact subscription));
             ("success", JBool false);
             ("error", JStr message)]
            ++ opt_prop "statusCode" (JNat <$> statusCode))
  end.

(** [error.statusCode === 410] *)
Definition is_gone (statusCode : option nat) : bool :=
  match statusCode with
  | Some code => Nat.eqb code 410
  | None => false
  end.

(** The body of the loop, the [try] and its [catch], for the subscription
    read at index [i]. *)
Definition iteration (payload : string) (st : Loop)
    (subscription : Subscription) : Loop :=
  let o := sendNotification world (length (calls st)) subscription payload in
  match o with
  | Sent _ =>
      {| subscriptions := subscriptions st;
         i := i st;
         results := results st ++ [result_entry subscription o];
         successCount := S (successCount st);
         failureCount := failureCount st;
         calls := calls st ++ [subscription] |}
  | Failed _ statusCode =>
      {| subscriptions :=
           if is_gone statusCode
           then delete (Z.to_nat (i st)) (subscriptions st)
           else subscriptions st;
         i := if is_gone statusCode then (i st - 1)%Z else i st;
         results := results st ++ [result_entry subscription o];
         successCount := successCount st;
         failureCount := S (failureCount st);
         calls := calls st ++ [subscription] |}
  end.

(** [i++] *)
Definition increment (st : Loop) : Loop :=
  {| subscriptions := subscriptions st;
     i := (i st + 1)%Z;
     results := results st;
     successCount := successCount st;
     failureCount := failureCount st;
     calls := calls st |}.

(** [for (...; i < subscriptions.length; i++) { ... }], with a bound on
    the number of iterations; [None] when the bound is too small for the
    loop to reach its exit, or when [subscriptions[i]] reads nothing (the
    body would then throw out of its own [catch]). *)
Fixpoint loop (fuel : nat) (payload : string) (st : Loop) : option Loop :=
  if decide (i st < Z.of_nat (length (subscriptions st)))%Z then
    match fuel, at_index (subscriptions st) (i st) with
    | S fuel, Some subscription =>
        loop fuel payload (increment (iteration payload st subscription))
    | _, _ => None
    end
  else Some st.

(** The handler: the response, the registry it leaves and the transport
    calls it made. *)
Definition send_notification (req : Notification)
    (subscriptions0 : Subscriptions)
  : option (Response * Subscriptions * list Subscription) :=
  if Nat.eqb (length subscriptions0) 0 then
    Some (status_json 400
            [("error", JStr "No subscriptions available");
             ("hint", JStr "Make sure to subscribe first from the web app")],
          subscriptions0, [])
  else
    st ← loop (length subscriptions0) (payload req)
           {| subscriptions := subscriptions0; i := 0;
              results := []; successCount := 0; failureCount := 0;
              calls := [] |};
    Some (json [("success", JBool (0 <? successCount st));
                ("message",
                 JStr ("Push sent to " +:+ nat_to_string (successCount st)
                       +:+ "/" +:+ nat_to_string (length (results st))
                       +:+ " subscribers"));
                ("results", JArr (results st));
                ("summary",
                 JObj [("total", JNat (length (results st)));
                       ("successful", JNat (successCount st));
                       ("failed", JNat (failureCount st))])],
          subscriptions st, calls st).

End Handler.

End Dispatch.

(** ** Conditional notifications ([/api/trading-signal], [/api/price-alert],
       [/api/market-event]) *)

Module Rules.

(** What the request to the notification endpoint of OneSignal does:
    [fetch] or [response.json()] rejects with an error, or the response
    arrives with its [ok] flag and its parsed body. *)
Inductive FetchOutcome :=
| Rejected (message : string)
| Reply (ok : bool) (result : Json).

(** The n-th reading of [Date.now()] and the outcome of posting a body to
    [https://onesignal.com/api/v1/notifications]. *)
Record World := {
  Date_now : nat -> Z;
  fetch : string -> FetchOutcome
}.

(** Request bodies, typed as the API client declares them. *)
Record TradingSignal := {
  ts_symbol : string;
  ts_price : number;
  ts_action : string;
  ts_confidence : number;
  ts_stopLoss : number;
  ts_takeProfit : number;
  ts_userId : option string
}.

Record PriceAlert := {
  pa_symbol : string;
  pa_currentPrice : number;
  pa_targetPrice : number;
  pa_alertType : string;
  pa_userId : option string
}.

Record MarketEvent := {
  me_eventType : string;
  me_title : option string;
  me_message : string;
  me_severity : option string;
  me_userId : option string
}.

Section Handlers.

Variable rt : Runtime.
Variable world : World.

Definition num (n : number) : string := ToString rt (JNum n).

(** The properties every payload ends with. *)
Definition web_props : list (string * Json) :=
  [("web_url", JStr "https://react.signalstrading.app/");
   ("chrome_web_icon", JStr "https://react.signalstrading.app/vite.svg");
   ("firefox_icon", JStr "https://react.signalstrading.app/vite.svg")].

(** [if (userId) payload.include_player_ids = [userId]
     else payload.included_segments = ['Subscribed Users']] *)
Definition with_target (userId : option string)
    (oneSignalPayload : list (string * Json)) : list (string * Json) :=
  match userId with
  | Some u =>
      if truthy_string u
      then set_prop "include_player_ids" (JArr [JStr u]) oneSignalPayload
      else set_prop "included_segments" (JArr [JStr "Subscribed Users"])
             oneSignalPayload
  | None =>
      set_prop "included_segments" (JArr [JStr "Subscribed Users"])
        oneSignalPayload
  end.

(** The message of the error raised when the response is not [ok]:
    [`OneSignal API error: ${result.errors || JSON.stringify(result)}`],
    where reading [errors] off [null] is itself a [TypeError]. *)
Definition api_error (result : Json) : string :=
  match result with
  | JNull => "Cannot read properties of null (reading 'errors')"
  | _ =>
      "OneSignal API error: " +:+
      match get "errors" result with
      | Some e => if truthy e then ToString rt e else JSON_stringify rt result
      | None => JSON_stringify rt result
      end
  end.

(** The tail shared by the three handlers: post the payload, then answer
    with [sent result] when the response is [ok], and with status 500
    and the error's message otherwise (the [catch] of the handler). *)
Definition post (failure : string) (oneSignalPayload : list (string * Json))
    (sent : Json -> list (string * Json)) : Response * list Json :=
  let calls := [JObj oneSignalPayload] in
  match fetch world (JSON_stringify rt (JObj oneSignalPayload)) with
  | Rejected message =>
      (status_json 500 [("error", JStr failure); ("message", JStr message)],
       calls)
  | Reply ok result =>
      if negb ok then
        (status_json 500 [("error", JStr failure);
                          ("message", JStr (api_error result))],
         calls)
      else (json (sent result), calls)
  end.

(** [app.post('/api/trading-signal')] *)
Definition trading_signal (req : TradingSignal) : Response * list Json :=
  let symbol := ts_symbol req in
  let price := ts_price req in
  let action := ts_action req in
  let confidence := ts_confidence req in
  let stopLoss := ts_stopLoss req in
  let takeProfit := ts_takeProfit req in
  if lt confidence (of_Z 75) then
    (json [("success", JBool true);
           ("message",
            JStr "Signal received but confidence too low for notification");
           ("notified", JBool false)],
     [])
  else
    let title := "🎯 " +:+ toUpperCase rt action +:+ " Signal: " +:+ symbol in
    let message :=
      symbol +:+ " at $" +:+ num price
      +:+ " | Confidence: " +:+ num confidence
      +:+ "% | SL: $" +:+ num stopLoss
      +:+ " | TP: $" +:+ num takeProfit in
    let notificationData :=
      JObj [("signal",
             JObj [("symbol", JStr symbol);
                   ("price", JNum price);
                   ("action", JStr action);
                   ("confidence", JNum confidence);
                   ("stopLoss", JNum stopLoss);
                   ("takeProfit", JNum takeProfit);
                   ("timestamp", JInt (Date_now world 0))]);
            ("url", JStr ("/signals/" +:+ toLowerCase rt symbol))] in
    let oneSignalPayload :=
      [("app_id", JStr "f88d5ae4-e766-461f-bf00-90707c1b850e");
       ("headings", JObj [("en", JStr title)]);
       ("contents", JObj [("en", JStr message)]);
       ("data", notificationData)] ++ web_props in
    post "Trading signal notification failed"
      (with_target (ts_userId req) oneSignalPayload)
      (fun result =>
         [("success", JBool true);
          ("message", JStr "Trading signal processed and notification sent");
          ("signal",
           JObj [("symbol", JStr symbol);
                 ("action", JStr action);
                 ("price", JNum price);
                 ("confidence", JNum confidence)]);
          ("notification", result);
          ("notified", JBool true)]).

(** The condition of [/api/price-alert]: [shouldAlert] and [alertMessage]
    after the two tests. *)
Definition check_alert (req : PriceAlert) : bool * string :=
  let symbol := pa_symbol req in
  let currentPrice := pa_currentPrice req in
  let targetPrice := pa_targetPrice req in
  let alertType := pa_alertType req in
  if String.eqb alertType "above" && ge currentPrice targetPrice then
    (true,
     symbol +:+ " reached $" +:+ num currentPrice
     +:+ " (above target $" +:+ num targetPrice +:+ ")")
  else if String.eqb alertType "below" && le currentPrice targetPrice then
    (true,
     symbol +:+ " dropped to $" +:+ num currentPrice
     +:+ " (below target $" +:+ num targetPrice +:+ ")")
  else (false, "").

(** [app.post('/api/price-alert')] *)
Definition price_alert (req : PriceAlert) : Response * list Json :=
  let symbol := pa_symbol req in
  let currentPrice := pa_currentPrice req in
  let targetPrice := pa_targetPrice req in
  let alertType := pa_alertType req in
  let '(shouldAlert, alertMessage) := check_alert req in
  if negb shouldAlert then
    (json [("success", JBool true);
           ("message", JStr "Price checked but alert conditions not met");
           ("notified", JBool false);
           ("currentPrice", JNum currentPrice);
           ("targetPrice", JNum targetPrice)],
     [])
  else
    let title := "🚨 Price Alert: " +:+ symbol in
    let alert :=
      JObj [("symbol", JStr symbol);
            ("currentPrice", JNum currentPrice);
            ("targetPrice", JNum targetPrice);
            ("alertType", JStr alertType)] in
    let oneSignalPayload :=
      [("app_id", JStr "f88d5ae4-e766-461f-bf00-90707c1b850e");
       ("headings", JObj [("en", JStr title)]);
       ("contents", JObj [("en", JStr alertMessage)]);
       ("data",
        JObj [("alert", alert);
              ("url", JStr ("/alerts/" +:+ toLowerCase rt symbol))])]
      ++ web_props in
    post "Price alert notification failed"
      (with_target (pa_userId req) oneSignalPayload)
      (fun result =>
         [("success", JBool true);
          ("message", JStr "Price alert triggered and notification sent");
          ("alert", alert);
          ("notification", result);
          ("notified", JBool true)]).

(** [app.post('/api/market-event')] *)
Definition market_event (req : MarketEvent) : Response * list Json :=
  let eventType := me_eventType req in
  let severity := default "normal" (me_severity req) in
  if String.eqb severity "low" then
    (json [("success", JBool true);
           ("message",
            JStr "Event received but severity too low for notification");
           ("notified", JBool false)],
     [])
  else
    let eventTitle :=
      or_default (me_title req) ("📈 Market Event: " +:+ eventType) in
    let eventIcon := if String.eqb severity "high" then "🚨" else "📊" in
    let oneSignalPayload :=
      [("app_id", JStr "f88d5ae4-e766-461f-bf00-90707c1b850e");
       ("headings", JObj [("en", JStr (eventIcon +:+ " " +:+ eventTitle))]);
       ("contents", JObj [("en", JStr (me_message req))]);
       ("data",
        JObj [("event",
               JObj [("eventType", JStr eventType);
                     ("severity", JStr severity);
                     ("timestamp", JInt (Date_now world 0))]);
              ("url", JStr "/market-events")])]
      ++ web_props in
    post "Market event notification failed"
      (with_target (me_userId req) oneSignalPayload)
      (fun result =>
         [("success", JBool true);
          ("message", JStr "Market event processed and notification sent");
          ("event",
           JObj [("eventType", JStr eventType);
                 ("severity", JStr severity)]);
          ("notification", result);
          ("notified", JBool true)]).

End Handlers.

End Rules.

(** ** The status probe of the client ([getOneSignalStatus], the revision
       that reads the v16 surface of the SDK) *)

Module OneSignal.

(** Calling (and awaiting) a method of the SDK. *)
Inductive Call (A : Type) :=
| Returns (a : A)
| Throws.
Arguments Returns {A} a.
Arguments Throws {A}.

(** [window.OneSignal.User.pushSubscription]: [None] is an undefined
    property, respectively a property that is not a function. *)
Record OptIn := {
  optedIn : option bool;
  getOptedInAsync : option (Call bool)
}.

(** [window.OneSignal.User.PushSubscription] *)
Record SubscriptionId := {
  id : option string;
  getIdAsync : option (Call (option string))
}.

(** [window.OneSignal.User] *)
Record UserNamespace := {
  pushSubscription : option OptIn;
  onesignalId : option string;
  PushSubscription : option SubscriptionId
}.

(** [window.OneSignal]; calling a method that does not exist throws. *)
Record Sdk := {
  isPushNotificationsSupported : Call bool;
  getNotificationPermission : Call string;
  User : option UserNamespace;
  isPushNotificationsEnabled : option (Call bool);
  getUserId : option (Call (option string))
}.

(** The globals read: [window.OneSignal], and [Notification.permission],
    which is [None] where the global [Notification] does not exist and
    reading it throws. *)
Record Window := {
  OneSignal : option Sdk;
  Notification_permission : option string
}.

Record Status := {
  isSupported : bool;
  isInitialized : bool;
  isPushSupported : bool;
  notificationPermission : string;
  isSubscribed : bool;
  userId : option string
}.

(** The status returned when the SDK is absent, and by the outer [catch]. *)
Definition unavailable : Status :=
  {| isSupported := false;
     isInitialized := false;
     isPushSupported := false;
     notificationPermission := "default";
     isSubscribed := false;
     userId := None |}.

(** First [try]: a failing call is taken for support. *)
Definition read_isPushSupported (sdk : Sdk) : bool :=
  match isPushNotificationsSupported sdk with
  | Returns b => b
  | Throws => true
  end.

(** Second [try]; [Throws] when its [catch] throws in turn. *)
Definition read_notificationPermission (w : Window) (sdk : Sdk) : Call string :=
  match getNotificationPermission sdk with
  | Returns p => Returns p
  | Throws =>
      match Notification_permission w with
      | Some p => Returns (or_default (Some p) "default")
      | None => Throws
      end
  end.

(** The body of the third [try]: the value [isSubscribed] has when the
    body completes, or [Throws]. *)
Definition subscription_flag (sdk : Sdk) : Call bool :=
  let legacy :=
    match isPushNotificationsEnabled sdk with
    | Some r => r
    | None => Returns false
    end in
  match User sdk with
  | Some user =>
      match pushSubscription user with
      | Some ps =>
          match optedIn ps with
          | Some b => Returns b
          | None =>
              match getOptedInAsync ps with
              | Some r => r
              | None => Returns false
              end
          end
      | None => legacy
      end
  | None => legacy
  end.

(** The third [try] with its [catch]. *)
Definition read_isSubscribed (sdk : Sdk) : bool :=
  match subscription_flag sdk with
  | Returns b => b
  | Throws => false
  end.

(** The body of the fourth [try]: the value [userId] has when the body
    completes, or [Throws]. *)
Definition subscriber_id (sdk : Sdk) : Call (option string) :=
  let legacy :=
    match getUserId sdk with
    | Some r => r
    | None => Returns None
    end in
  match User sdk with
  | Some user =>
      if truthy_opt (onesignalId user) then Returns (onesignalId user)
      else
        match PushSubscription user with
        | Some ps =>
            if truthy_opt (id ps) then Returns (id ps)
            else
              match getIdAsync ps with
              | Some r => r
              | None => legacy
              end
        | None => legacy
        end
  | None => legacy
  end.

(** The fourth [try] with its [catch]. *)
Definition read_userId (sdk : Sdk) : option string :=
  match subscriber_id sdk with
  | Returns u => u
  | Throws => None
  end.

Definition getOneSignalStatus (w : Window) : Status :=
  match OneSignal w with
  | None => unavailable
  | Some sdk =>
      let isPushSupported := read_isPushSupported sdk in
      match read_notificationPermission w sdk with
      | Throws => unavailable
      | Returns notificationPermission =>
          let isSubscribed := read_isSubscribed sdk in
          let userId := read_userId sdk in
          let isSubscribed :=
            if negb isSubscribed && truthy_opt userId then true
            else isSubscribed in
          {| isSupported := true;
             isInitialized := true;
             isPushSupported := isPushSupported;
             notificationPermission := notificationPermission;
             isSubscribed := isSubscribed;
             userId := userId |}
      end
  end.

End OneSignal.

(** ** Specification-level vocabulary and sample data *)

Module Spec.

Import Dispatch.

(** Order on numbers as one reads it on the extended rationals; NaN is
    comparable with nothing. *)
Definition below (x y : number) : Prop :=
  match x, y with
  | Finite a, Finite b => (a < b)%Q
  | Finite _, PosInfinity | NegInfinity, Finite _
  | NegInfinity, PosInfinity => True
  | _, _ => False
  end.

Definition at_most (x y : number) : Prop :=
  match x, y with
  | Finite a, Finite b => (a <= b)%Q
  | NaN, _ | _, NaN => False
  | NegInfinity, _ | _, PosInfinity => True
  | _, _ => False
  end.

Definition at_least (x y : number) : Prop := at_most y x.

(** The sends of one dispatch as a list: each target of [targets], in
    order, with what the transport answers, the first call being number
    [n] of the request. *)
Fixpoint attempts (world : World) (payload : string) (n : nat)
    (targets : list Subscription) : list (Subscription * SendOutcome) :=
  match targets with
  | [] => []
  | s :: rest =>
      (s, sendNotification world n s payload)
      :: attempts world payload (S n) rest
  end.

(** The sends of the dispatch of [req] over the registry [subs]. *)
Definition sent (rt : Runtime) (world : World) (req : Notification)
    (subs : list Subscription) : list (Subscription * SendOutcome) :=
  attempts world (payload rt world req) 0 subs.

Definition succeeded (a : Subscription * SendOutcome) : bool :=
  match a.2 with
  | Sent _ => true
  | Failed _ _ => false
  end.

(** The transport reported the target as permanently invalid (410). *)
Definition gone (a : Subscription * SendOutcome) : bool :=
  match a.2 with
  | Sent _ => false
  | Failed _ statusCode => is_gone statusCode
  end.

Definition entry_of (a : Subscription * SendOutcome) : Json :=
  result_entry a.1 a.2.

Definition count (p : Subscription * SendOutcome -> bool)
    (l : list (Subscription * SendOutcome)) : nat :=
  length (List.filter p l).

Definition survivors (l : list (Subscription * SendOutcome))
  : list Subscription :=
  fst <$> List.filter (fun a => negb (gone a)) l.

(** The registries the server can hold: it starts empty, and only the
    three handlers below write the variable. *)
Inductive reachable : list Subscription -> Prop :=
| reach_start : reachable []
| reach_subscribe o subs :
    reachable subs -> reachable (subscribe o subs).2
| reach_clear subs :
    reachable subs -> reachable (clear_subscriptions subs).2
| reach_dispatch rt world req subs resp registry made :
    reachable subs ->
    send_notification rt world req subs = Some (resp, registry, made) ->
    reachable registry.

End Spec.

(** Concrete requests and worlds on which the handlers are run below. *)

Module Samples.

Definition upper_ascii (c : Ascii.ascii) : Ascii.ascii :=
  let n := Ascii.nat_of_ascii c in
  if (97 <=? n) && (n <=? 122) then Ascii.ascii_of_nat (n - 32) else c.

Definition lower_ascii (c : Ascii.ascii) : Ascii.ascii :=
  let n := Ascii.nat_of_ascii c in
  if (65 <=? n) && (n <=? 90) then Ascii.ascii_of_nat (n + 32) else c.

Fixpoint map_string (f : Ascii.ascii -> Ascii.ascii) (s : string) : string :=
  match s with
  | EmptyString => EmptyString
  | String c rest => String (f c) (map_string f rest)
  end.

Definition show_atom (j : Json) : string :=
  match j with
  | JStr s => s
  | JNum (Finite q) => Z_to_string (Qnum q / Zpos (Qden q))
  | JBool true => "true"
  | JBool false => "false"
  | JNull => "null"
  | _ => "?"
  end.

(** A runtime good enough for the examples: integers print in decimal,
    strings as themselves, an array of those with commas between its items,
    letters of ASCII change case; serialisation is not looked at and left
    blank. *)
Definition ascii_runtime : Runtime :=
  {| ToString := fun j =>
       match j with
       | JArr items => String.concat "," (show_atom <$> items)
       | _ => show_atom j
       end;
     JSON_stringify := fun _ => "{}";
     toUpperCase := map_string upper_ascii;
     toLowerCase := map_string lower_ascii |}.

Definition subA : Subscription :=
  {| endpoint := "https://push.example/send/A";
     expirationTime := None;
     keys := Some [("p256dh", "BPa"); ("auth", "ka")] |}.

Definition subB : Subscription :=
  {| endpoint := "https://push.example/send/B";
     expirationTime := None;
     keys := Some [("p256dh", "BPb"); ("auth", "kb")] |}.

(** The same endpoint as [subA] after a key rotation. *)
Definition subA' : Subscription :=
  {| endpoint := "https://push.example/send/A";
     expirationTime := None;
     keys := Some [("p256dh", "BPa2"); ("auth", "ka2")] |}.

Definition clock (n : nat) : Z := 1700000000000 + Z.of_nat n.

(** The push service accepts every message but those for [subB], which it
    reports gone. *)
Definition b_is_gone : Dispatch.World :=
  {| Dispatch.Date_now := clock;
     Dispatch.sendNotification := fun _ s _ =>
       if String.eqb (endpoint s) (endpoint subB)
       then Dispatch.Failed "Received unexpected response code" (Some 410)
       else Dispatch.Sent 201 |}.

(** The push service cannot be reached. *)
Definition unreachable : Dispatch.World :=
  {| Dispatch.Date_now := clock;
     Dispatch.sendNotification := fun _ _ _ =>
       Dispatch.Failed "connect ETIMEDOUT" None |}.

Definition test_push : Dispatch.Notification :=
  {| Dispatch.title := Some "Hello";
     Dispatch.body := None;
     Dispatch.icon := None;
     Dispatch.badge := None;
     Dispatch.tag := None;
     Dispatch.data := [] |}.

(** OneSignal accepts the notification. *)
Definition accepting : Rules.World :=
  {| Rules.Date_now := clock;
     Rules.fetch := fun _ =>
       Rules.Reply true (JObj [("id", JStr "n-1"); ("recipients", JNat 3)]) |}.


Definition signal (confidence : Z) : Rules.TradingSignal :=
  {| Rules.ts_symbol := "AAPL";
     Rules.ts_price := of_Z 150;
     Rules.ts_action := "buy";
     Rules.ts_confidence := of_Z confidence;
     Rules.ts_stopLoss := of_Z 145;
     Rules.ts_takeProfit := of_Z 160;
     Rules.ts_userId := None |}.

Definition alert (alertType : string) (current target : Z) : Rules.PriceAlert :=
  {| Rules.pa_symbol := "BTC";
     Rules.pa_currentPrice := of_Z current;
     Rules.pa_targetPrice := of_Z target;
     Rules.pa_alertType := alertType;
     Rules.pa_userId := None |}.

Definition event (severity : option string) : Rules.MarketEvent :=
  {| Rules.me_eventType := "EARNINGS";
     Rules.me_title := None;
     Rules.me_message := "Quarterly results are out";
     Rules.me_severity := severity;
     Rules.me_userId := None |}.

(** An SDK that knows the subscriber id but whose read of the opt-in flag
    throws, and a browser loaded with it. *)
Definition sdk_flag_unreadable : OneSignal.Sdk :=
  {| OneSignal.isPushNotificationsSupported := OneSignal.Returns true;
     OneSignal.getNotificationPermission := OneSignal.Returns "granted";
     OneSignal.User :=
       Some {| OneSignal.pushSubscription :=
                 Some {| OneSignal.optedIn := None;
                         OneSignal.getOptedInAsync := Some OneSignal.Throws |};
               OneSignal.onesignalId := Some "user-42";
               OneSignal.PushSubscription := None |};
     OneSignal.isPushNotificationsEnabled := None;
     OneSignal.getUserId := None |}.

Definition flag_unreadable : OneSignal.Window :=
  {| OneSignal.OneSignal := Some sdk_flag_unreadable;
     OneSignal.Notification_permission := Some "granted" |}.

End Samples.

(** * The rest of the server and its callers *)

(** ** More of the language *)

Module JsMore.

(** [v || d] where [v] is a property read off a JSON value. *)
Definition or_else (v : option Json) (d : Json) : Json :=
  match v with
  | Some j => if truthy j then j else d
  | None => d
  end.

(** The properties [{ ...v }] copies out of a value: those of an object,
    the items of an array under their indices, the characters of a string
    under theirs, and nothing for the other values. *)
Definition own_props (v : Json) : list (string * Json) :=
  match v with
  | JObj props => props
  | JArr items => imap (fun i item => (nat_to_string i, item)) items
  | JStr s =>
      imap (fun i c => (nat_to_string i, JStr (String c EmptyString)))
        (String.list_ascii_of_string s)
  | _ => []
  end.

(** A call that returns a value or throws an error with a message. *)
Inductive Result (A : Type) :=
| Ok (a : A)
| Err (message : string).
Arguments Ok {A} a.
Arguments Err {A} message.

End JsMore.

Import JsMore.

(** ** Relaying to OneSignal ([/api/onesignal-broadcast], [/api/onesignal-send]) *)

Module Relay.

Import Rules.

(** The bodies of the two requests. *)
Record Broadcast := {
  bc_title : option string;
  bc_message : option string;
  bc_data : list (string * Json);
  bc_filters : option Json
}.

Record Direct := {
  dm_title : option string;
  dm_message : option string;
  dm_userId : option string;
  dm_data : list (string * Json)
}.

Section Handlers.

Variable rt : Runtime.
Variable world : World.

(** The message of the error thrown when the reply is not accepted:
    [`OneSignal API error: ${oneSignalResult.errors || 'Unknown error'}`];
    reading [errors] off [null] is a [TypeError]. *)
Definition vendor_error (oneSignalResult : Json) : string :=
  match oneSignalResult with
  | JNull => "Cannot read properties of null (reading 'errors')"
  | _ =>
      "OneSignal API error: " +:+
      match get "errors" oneSignalResult with
      | Some e => if truthy e then ToString rt e else "Unknown error"
      | None => "Unknown error"
      end
  end.

(** The [catch] of both handlers; an [Error] serialises as an empty object. *)
Definition relay_failure (failure message : string) : Response :=
  status_json 500 [("error", JStr failure);
                   ("message", JStr message);
                   ("details", JObj [])].

(** What both handlers do with the payload: post it, answer with the
    success response when the reply is [ok] and carries a truthy [id],
    and go through the [catch] otherwise. *)
Definition relay (failure success : string) (recipients : Json)
    (payload : list (string * Json)) : Response * list Json :=
  let calls := [JObj payload] in
  match fetch world (JSON_stringify rt (JObj payload)) with
  | Rejected message => (relay_failure failure message, calls)
  | Reply ok oneSignalResult =>
      if ok then
        match oneSignalResult with
        | JNull =>
            (relay_failure failure
               "Cannot read properties of null (reading 'id')",
             calls)
        | _ =>
            match get "id" oneSignalResult with
            | Some id =>
                if truthy id then
                  (json [("success", JBool true);
                         ("message", JStr success);
                         ("notificationId", id);
                         ("recipients",
                          or_else (get "recipients" oneSignalResult)
                            recipients)],
                   calls)
                else
                  (relay_failure failure (vendor_error oneSignalResult),
                   calls)
            | None =>
                (relay_failure failure (vendor_error oneSignalResult), calls)
            end
        end
      else (relay_failure failure (vendor_error oneSignalResult), calls)
  end.

(** [app.post('/api/onesignal-broadcast')] *)
Definition onesignal_broadcast (req : Broadcast) : Response * list Json :=
  relay "OneSignal broadcast failed" "OneSignal broadcast sent successfully"
    (JStr "all")
    ([("app_id", JStr "f88d5ae4-e766-461f-bf00-90707c1b850e");
      ("included_segments", JArr [JStr "Subscribed Users"]);
      ("filters", or_else (bc_filters req) (JArr []));
      ("headings",
       JObj [("en", JStr (or_default (bc_title req) "🚨 Trading Alert"))]);
      ("contents",
       JObj [("en",
              JStr (or_default (bc_message req)
                      "New trading signal available!"))]);
      ("data",
       JObj (spread [("url", JStr "/");
                     ("timestamp", JInt (Date_now world 0));
                     ("source", JStr "broadcast-notification")]
                    (bc_data req)))]
     ++ web_props).

(** [app.post('/api/onesignal-send')] *)
Definition onesignal_send (req : Direct) : Response * list Json :=
  match dm_userId req with
  | Some userId =>
      if truthy_string userId then
        relay "OneSignal notification failed"
          "OneSignal notification sent successfully" (JNat 1)
          ([("app_id", JStr "f88d5ae4-e766-461f-bf00-90707c1b850e");
            ("include_player_ids", JArr [JStr userId]);
            ("headings", JObj (opt_prop "en" (JStr <$> dm_title req)));
            ("contents", JObj (opt_prop "en" (JStr <$> dm_message req)));
            ("data",
             JObj (spread [("url", JStr "/");
                           ("timestamp", JInt (Date_now world 0));
                           ("source", JStr "server-onesignal")]
                          (dm_data req)))]
           ++ web_props)
      else
        (status_json 400
           [("error", JStr "OneSignal user ID required");
            ("hint", JStr "Make sure user is subscribed to OneSignal first")],
         [])
  | None =>
      (status_json 400
         [("error", JStr "OneSignal user ID required");
          ("hint", JStr "Make sure user is subscribed to OneSignal first")],
       [])
  end.

End Handlers.

End Relay.

(** ** The service worker ([sw.js]: the [push] and [notificationclick]
       listeners) *)

Module ServiceWorker.

Import OneSignal.

(** [event.data] of a push event: what [json()] returns, or that it throws,
    and what [text()] returns. *)
Record PushMessageData := {
  pm_json : Call Json;
  pm_text : string
}.

(** The local [notificationData]; [tag] and [data] exist only once a
    message was parsed. *)
Record NotificationData := {
  nd_title : Json;
  nd_body : Json;
  nd_icon : Json;
  nd_badge : Json;
  nd_tag : option Json;
  nd_data : option Json
}.

Definition initial_data : NotificationData :=
  {| nd_title := JStr "React Push Test";
     nd_body := JStr "Test notification from React app";
     nd_icon := JStr "/vite.svg";
     nd_badge := JStr "/vite.svg";
     nd_tag := None;
     nd_data := None |}.

(** The [catch] of the parse: the text of the message becomes the body,
    unless it is empty. *)
Definition with_text (text : string) : NotificationData :=
  {| nd_title := nd_title initial_data;
     nd_body := if truthy_string text then JStr text else nd_body initial_data;
     nd_icon := nd_icon initial_data;
     nd_badge := nd_badge initial_data;
     nd_tag := None;
     nd_data := None |}.

(** [notificationData] after the [if (event.data)] block. Reading [title]
    off [null] throws, which lands in the same [catch] as a failing
    [json()]. *)
Definition read_push (data : option PushMessageData) : NotificationData :=
  match data with
  | None => initial_data
  | Some d =>
      match pm_json d with
      | Throws => with_text (pm_text d)
      | Returns JNull => with_text (pm_text d)
      | Returns pushData =>
          {| nd_title := or_else (get "title" pushData) (nd_title initial_data);
             nd_body :=
               or_else (get "body" pushData)
                 (or_else (get "message" pushData) (nd_body initial_data));
             nd_icon := or_else (get "icon" pushData) (nd_icon initial_data);
             nd_badge := or_else (get "badge" pushData) (nd_badge initial_data);
             nd_tag :=
               Some (or_else (get "tag" pushData)
                       (JStr "react-push-notification"));
             nd_data := Some (or_else (get "data" pushData) (JObj [])) |}
      end
  end.

(** The [options] of the notification. *)
Definition options (now : Z) (nd : NotificationData) : list (string * Json) :=
  [("body", nd_body nd); ("icon", nd_icon nd); ("badge", nd_badge nd)]
  ++ opt_prop "tag" (nd_tag nd)
  ++ [("requireInteraction", JBool false);
      ("silent", JBool false);
      ("vibrate", JArr [JNat 200; JNat 100; JNat 200]);
      ("data",
       JObj (spread [("url", JStr "/"); ("timestamp", JInt now)]
               (match nd_data nd with
                | Some v => own_props v
                | None => []
                end)));
      ("actions",
       JArr [JObj [("action", JStr "open");
                   ("title", JStr "Open App");
                   ("icon", JStr "/vite.svg")];
             JObj [("action", JStr "dismiss");
                   ("title", JStr "Dismiss")]])].

(** The [push] listener: the calls of [showNotification] it makes, each
    with its title and options, given the reading of the clock and whether
    the first call succeeds. *)
Definition on_push (now : Z) (first_show : Call unit)
    (data : option PushMessageData) : list (Json * list (string * Json)) :=
  let notificationData := read_push data in
  let shown := (nd_title notificationData, options now notificationData) in
  match first_show with
  | Returns _ => [shown]
  | Throws =>
      [shown;
       (nd_title notificationData,
        [("body", nd_body notificationData);
         ("icon", nd_icon notificationData)])]
  end.

(** A window the worker can see. *)
Record WindowClient := {
  wc_url : string;
  wc_focusable : bool
}.

Inductive Effect :=
| Close
| Focus (client : nat)
| OpenWindow (url : Json).

(** The loop over [clientList]: the index of the first client whose [url]
    is the one to open and that can be focused. *)
Fixpoint first_match (urlToOpen : Json) (i : nat) (clientList : list WindowClient)
  : option nat :=
  match clientList with
  | [] => None
  | client :: rest =>
      match urlToOpen with
      | JStr u =>
          if String.eqb (wc_url client) u && wc_focusable client
          then Some i
          else first_match urlToOpen (S i) rest
      | _ => first_match urlToOpen (S i) rest
      end
  end.

(** The [notificationclick] listener: [action] is [event.action], [data]
    is [event.notification.data], [matchAll] the outcome of
    [clients.matchAll], [openWindow] whether [clients.openWindow] exists. *)
Definition on_notificationclick (action : string) (data : option Json)
    (matchAll : Call (list WindowClient)) (openWindow : bool) : list Effect :=
  if String.eqb action "dismiss" then [Close]
  else
    let urlToOpen := or_else (data ≫= get "url") (JStr "/") in
    match matchAll with
    | Throws => [Close]
    | Returns clientList =>
        match first_match urlToOpen 0 clientList with
        | Some i => [Close; Focus i]
        | None => if openWindow then [Close; OpenWindow urlToOpen] else [Close]
        end
    end.

End ServiceWorker.

(** ** The object pushed to the subscribers *)

Module Wire.

Import Dispatch.

(** The object [/api/send-notification] serialises into its payload. *)
Definition payload_object (world : World) (req : Notification) : Json :=
  let clock := if truthy_opt (tag req) then 0 else 1 in
  JObj [("title", JStr (or_default (title req) "🚀 React Push Test"));
        ("body",
         JStr (or_default (body req) "Real push notification from server!"));
        ("icon", JStr (or_default (icon req) "/vite.svg"));
        ("badge", JStr (or_default (badge req) "/vite.svg"));
        ("tag",
         JStr (or_default (tag req)
                 ("server-push-" +:+ Z_to_string (Date_now world 0))));
        ("data",
         JObj (spread [("url", JStr "/");
                       ("timestamp", JInt (Date_now world clock));
                       ("source", JStr "node-server")]
                      (data req)));
        ("requireInteraction", JBool false);
        ("silent", JBool false);
        ("vibrate", JArr [JNat 200; JNat 100; JNat 200]);
        ("actions",
         JArr [JObj [("action", JStr "open");
                     ("title", JStr "Open App");
                     ("icon", JStr "/vite.svg")];
               JObj [("action", JStr "dismiss");
                     ("title", JStr "Dismiss")]])].

End Wire.

(** ** The API client and the Web Push helpers of the page
       ([src/config/api.ts], [src/utils/pushNotifications.ts]) *)

Module Client.

(** What the one [fetch] of a request does: it rejects, or a response
    arrives with its status, its status text and what [response.json()]
    gives. *)
Inductive HttpOutcome :=
| NetworkError (message : string)
| HttpReply (status : nat) (statusText : string) (body : Result Json).

(** [response.ok] *)
Definition response_ok (status : nat) : bool :=
  (200 <=? status) && (status <=? 299).

(** [ApiClient.request]: what the caller gets for the outcome of the
    [fetch]. *)
Definition request (o : HttpOutcome) : Result Json :=
  match o with
  | NetworkError message => Err message
  | HttpReply status statusText body =>
      if negb (response_ok status)
      then Err ("HTTP " +:+ nat_to_string status +:+ ": " +:+ statusText)
      else body
  end.

(** The reply that carries a response of the server back to the page. *)
Definition delivered (statusText : string) (r : Response) : HttpOutcome :=
  HttpReply (status r) statusText (Ok (content r)).

(** [Partial<NotificationPayload>] *)
Record PartialPayload := {
  pp_title : option string;
  pp_body : option string;
  pp_icon : option string;
  pp_badge : option string;
  pp_tag : option string;
  pp_data : option (list (string * Json))
}.

(** [notificationData] of [sendTestNotification]: the defaults, with the
    properties of [payload] written over them. *)
Definition notificationData (now : Z) (payload : option PartialPayload)
  : Dispatch.Notification :=
  let given {A} (f : PartialPayload -> option A) : option A := payload ≫= f in
  {| Dispatch.title := Some (default "🚀 React Push Test" (given pp_title));
     Dispatch.body :=
       Some (default
               "Real push notification from backend server! Check your phone! 📱"
               (given pp_body));
     Dispatch.icon := Some (default "/vite.svg" (given pp_icon));
     Dispatch.badge := given pp_badge;
     Dispatch.tag := Some (default "react-push-test" (given pp_tag));
     Dispatch.data :=
       default [("url", JStr "/");
                ("timestamp", JInt now);
                ("source", JStr "backend-server-push")]
               (given pp_data) |}.

(** [result.success], for what a request returned. *)
Definition succeeded (r : Result Json) : bool :=
  match r with
  | Ok result => truthy (or_else (get "success" result) (JBool false))
  | Err _ => false
  end.


(** [sendSubscriptionToServer]: what it returns for the outcome of the
    request to [/api/subscribe], and the item it writes to [localStorage];
    [setItem] is whether that write succeeds. *)
Definition sendSubscriptionToServer (rt : Runtime) (subscription : Subscription)
    (reply : HttpOutcome) (setItem : OneSignal.Call unit)
  : bool * option (string * string) :=
  if succeeded (request reply) then
    match setItem with
    | OneSignal.Returns _ =>
        (true,
         Some ("pushSubscription",
               JSON_stringify rt (subscription_json subscription)))
    | OneSignal.Throws => (false, None)
    end
  else (false, None).

(** What the page can see of the browser. *)
Record Browser := {
  serviceWorker_in_navigator : bool;
  PushManager_in_window : bool;
  Notification_in_window : bool;
  protocol : string;
  hostname : string;
  permission : string;
  requestPermission : Result string
}.

Definition isPushNotificationSupported (b : Browser) : bool :=
  serviceWorker_in_navigator b
  && PushManager_in_window b
  && Notification_in_window b
  && (String.eqb (protocol b) "https:" || String.eqb (hostname b) "localhost").

(** [requestNotificationPermission]: what it returns or throws, and whether
    it asked the user. *)
Definition requestNotificationPermission (b : Browser) : Result string * bool :=
  if negb (isPushNotificationSupported b) then
    (Err "Notifications are not supported", false)
  else if String.eqb (permission b) "granted" then (Ok "granted", false)
  else if String.eqb (permission b) "denied" then
    (Err "Notification permission was previously denied. Please enable in browser settings.",
     false)
  else
    match requestPermission b with
    | Ok p =>
        if negb (String.eqb p "granted")
        then (Err ("Notification permission not granted: " +:+ p), true)
        else (Ok p, true)
    | Err message => (Err message, true)
    end.

Import Stdlib.Strings.Ascii.




End Client.

(** ** More of the OneSignal helpers of the page ([src/utils/oneSignal.ts],
       the revision that reads the v16 surface) *)

Module OneSignalClient.

Import OneSignal.

(** [getOneSignalUserId] *)
Definition getOneSignalUserId (w : Window) : option string :=
  match OneSignal w with
  | None => None
  | Some sdk =>
      let legacy :=
        match getUserId sdk with
        | Some (Returns u) => u
        | Some Throws => None
        | None => None
        end in
      match User sdk with
      | None => legacy
      | Some user =>
          if truthy_opt (onesignalId user) then onesignalId user
          else
            match PushSubscription user with
            | None => legacy
            | Some ps =>
                if truthy_opt (id ps) then id ps
                else
                  match getIdAsync ps with
                  | Some (Returns u) => u
                  | Some Throws => None
                  | None => legacy
                  end
            end
      end
  end.

(** The id [sendOneSignalNotification] and the last check of
    [subscribeOneSignal] look for: the property of the user, the id of the
    push subscription, then the legacy call; [getIdAsync] is not tried. *)
Definition known_id (sdk : Sdk) : Call (option string) :=
  let legacy :=
    match getUserId sdk with
    | Some r => r
    | None => Returns None
    end in
  match User sdk with
  | None => legacy
  | Some user =>
      if truthy_opt (onesignalId user) then Returns (onesignalId user)
      else
        match PushSubscription user with
        | None => legacy
        | Some ps => if truthy_opt (id ps) then Returns (id ps) else legacy
        end
  end.

(** What a call of [sendOneSignalNotification] did: the body it posted to
    [/api/onesignal-send], if it got that far, whether it built a local
    [Notification] instead, and what it returned. *)
Record Sending := {
  posted : option Relay.Direct;
  local_shown : bool;
  returned : bool
}.

(** The [catch]: a local notification when the page may show one. *)
Definition fallback (w : Window) (new_Notification : Call unit)
    (posted : option Relay.Direct) : Sending :=
  match Notification_permission w with
  | Some p =>
      if String.eqb p "granted" then
        match new_Notification with
        | Returns _ =>
            {| posted := posted; local_shown := true; returned := true |}
        | Throws =>
            {| posted := posted; local_shown := false; returned := false |}
        end
      else {| posted := posted; local_shown := false; returned := false |}
  | None => {| posted := posted; local_shown := false; returned := false |}
  end.

(** [sendOneSignalNotification(title, message, data)]; [reply] is the
    outcome of its request and [new_Notification] that of building a local
    notification. *)
Definition sendOneSignalNotification (w : Window) (new_Notification : Call unit)
    (now : Z) (title message : string) (data : list (string * Json))
    (reply : Client.HttpOutcome) : Sending :=
  match OneSignal w with
  | None => fallback w new_Notification None
  | Some sdk =>
      match known_id sdk with
      | Throws => fallback w new_Notification None
      | Returns userId =>
          if negb (truthy_opt userId) then fallback w new_Notification None
          else
            let body :=
              {| Relay.dm_title := Some title;
                 Relay.dm_message := Some message;
                 Relay.dm_userId := userId;
                 Relay.dm_data :=
                   spread [("url", JStr "/");
                           ("timestamp", JInt now);
                           ("source", JStr "onesignal-test")]
                          data |} in
            match reply with
            | Client.NetworkError _ => fallback w new_Notification (Some body)
            | Client.HttpReply status _ (Err _) =>
                fallback w new_Notification (Some body)
            | Client.HttpReply status _ (Ok result) =>
                if Client.response_ok status
                   && truthy (or_else (get "success" result) (JBool false))
                then {| posted := Some body;
                        local_shown := false;
                        returned := true |}
                else fallback w new_Notification (Some body)
            end
      end
  end.

(** The members of the SDK only [subscribeOneSignal] touches: each is the
    outcome of calling it, [None] where it is not a function;
    [Notifications] is [None] where the namespace is absent, and holds its
    [requestPermission] otherwise; [set_optedIn] is the outcome of the
    assignment to [User.pushSubscription.optedIn]. *)
Record Methods := {
  optIn : option (Call unit);
  set_optedIn : Call unit;
  Notifications : option (option (Call unit));
  login : option (Call unit);
  showNativePrompt : option (Call unit);
  showSlidedownPrompt : option (Call unit)
}.

(** The world of one call of [subscribeOneSignal]: the page when the call
    starts, the outcome of the browser's permission prompt, the SDK as it
    answers right after the subscription step and at the last check. Which
    members the SDK has is read off the page as the call starts: the SDK
    object is taken to keep its shape up to the subscription step, while
    what it answers afterwards may differ ([mid], [final]). *)
Record Subscribing := {
  page : Window;
  methods : Methods;
  Notification_requestPermission : Call string;
  mid : Sdk;
  final : Sdk
}.

(** What the user or the SDK is asked to do. *)
Inductive Action :=
| AskBrowserPermission
| OptIn
| SetOptedIn
| AskSdkPermission
| Login
| NativePrompt
| SlidedownPrompt.

(** What a call did: its actions in order, the id it logged after the
    subscription step, what the last check found, what it returned. *)
Record Subscribed := {
  actions : list Action;
  logged_id : option (option string);
  checked : option (bool * option string);
  result : bool
}.

Definition failed (acts : list Action) : Subscribed :=
  {| actions := acts; logged_id := None; checked := None; result := false |}.

(** The five ways of subscribing, tried in order: the actions performed
    and whether the one chosen completed. *)
Definition subscription_step (sdk : Sdk) (m : Methods) : list Action * Call unit :=
  let has_PushSubscription :=
    match User sdk with
    | Some user => bool_decide (is_Some (PushSubscription user))
    | None => false
    end in
  let has_pushSubscription :=
    match User sdk with
    | Some user => bool_decide (is_Some (pushSubscription user))
    | None => false
    end in
  match (if has_PushSubscription then optIn m else None) with
  | Some r => ([OptIn], r)
  | None =>
      if has_pushSubscription then ([SetOptedIn], set_optedIn m)
      else
        match Notifications m, login m with
        | Some requestPermission, Some l =>
            match requestPermission with
            | None => ([], Throws)
            | Some Throws => ([AskSdkPermission], Throws)
            | Some (Returns _) => ([AskSdkPermission; Login], l)
            end
        | Some (Some r), None => ([AskSdkPermission], r)
        | Some None, None => ([], Throws)
        | None, Some l => ([Login], l)
        | None, None => ([], Throws)
        end
  end.

(** The [catch] around the step: the two prompts. *)
Definition prompt_step (m : Methods) : list Action * Call unit :=
  match showNativePrompt m with
  | Some r => ([NativePrompt], r)
  | None =>
      match showSlidedownPrompt m with
      | Some r => ([SlidedownPrompt], r)
      | None => ([], Throws)
      end
  end.

(** The last check: the opt-in flag, then the id, in one [try]. *)
Definition last_check (sdk : Sdk) : bool * option string :=
  match subscription_flag sdk with
  | Throws => (false, None)
  | Returns finalSubscriptionCheck =>
      match known_id sdk with
      | Throws => (finalSubscriptionCheck, None)
      | Returns finalUserId => (finalSubscriptionCheck, finalUserId)
      end
  end.

(** From the subscription step on. *)
Definition subscribe_from_step (s : Subscribing) (sdk : Sdk)
    (asked : list Action) : Subscribed :=
  let '(acts, done) := subscription_step sdk (methods s) in
  match done with
  | Returns _ =>
      {| actions := asked ++ acts;
         logged_id := Some (read_userId (mid s));
         checked := Some (last_check (final s));
         result := true |}
  | Throws =>
      let '(prompts, prompted) := prompt_step (methods s) in
      match prompted with
      | Returns _ =>
          {| actions := asked ++ acts ++ prompts;
             logged_id := None;
             checked := Some (last_check (final s));
             result := true |}
      | Throws => failed (asked ++ acts ++ prompts)
      end
  end.

(** [subscribeOneSignal] *)
Definition subscribeOneSignal (s : Subscribing) : Subscribed :=
  match OneSignal (page s) with
  | None => failed []
  | Some sdk =>
      let isAlreadySubscribed :=
        match isPushNotificationsEnabled sdk with
        | Some (Returns b) => b
        | Some Throws => false
        | None => false
        end in
      if isAlreadySubscribed then
        {| actions := []; logged_id := None; checked := None; result := true |}
      else
        match Notification_permission (page s) with
        | None => failed []
        | Some p =>
            if String.eqb p "granted" then subscribe_from_step s sdk []
            else
              match Notification_requestPermission s with
              | Throws => failed [AskBrowserPermission]
              | Returns permission =>
                  if String.eqb permission "granted"
                  then subscribe_from_step s sdk [AskBrowserPermission]
                  else failed [AskBrowserPermission]
              end
        end
  end.

End OneSignalClient.

(** ** More specification-level vocabulary *)

Module SpecMore.



End SpecMore.

(** ** More sample data *)

Module MoreSamples.

Import Samples.

(** OneSignal's answer when no recipient is subscribed: ok, an empty id. *)
Definition no_recipients : Json :=
  JObj [("id", JStr "");
        ("recipients", JNat 0);
        ("errors", JArr [JStr "All included players are not subscribed"])].

Definition nobody_listening : Rules.World :=
  {| Rules.Date_now := clock;
     Rules.fetch := fun _ => Rules.Reply true no_recipients |}.

Definition broadcast_all : Relay.Broadcast :=
  {| Relay.bc_title := Some "Market open";
     Relay.bc_message := None;
     Relay.bc_data := [];
     Relay.bc_filters := None |}.

(** What [sendOneSignalNotification "Hi" "There"] posts at time [clock 7]
    for the user of [flag_unreadable]. *)
Definition direct_to_42 : Relay.Direct :=
  {| Relay.dm_title := Some "Hi";
     Relay.dm_message := Some "There";
     Relay.dm_userId := Some "user-42";
     Relay.dm_data :=
       [("url", JStr "/");
        ("timestamp", JInt (clock 7));
        ("source", JStr "onesignal-test")] |}.

(** An SDK whose only way to the subscriber id is [getIdAsync]. *)
Definition async_id : OneSignal.SubscriptionId :=
  {| OneSignal.id := None;
     OneSignal.getIdAsync := Some (OneSignal.Returns (Some "sub-7")) |}.

Definition user_async_id : OneSignal.UserNamespace :=
  {| OneSignal.pushSubscription := None;
     OneSignal.onesignalId := None;
     OneSignal.PushSubscription := Some async_id |}.

Definition sdk_async_id : OneSignal.Sdk :=
  {| OneSignal.isPushNotificationsSupported := OneSignal.Returns true;
     OneSignal.getNotificationPermission := OneSignal.Returns "granted";
     OneSignal.User := Some user_async_id;
     OneSignal.isPushNotificationsEnabled := None;
     OneSignal.getUserId := None |}.

Definition page_async_id : OneSignal.Window :=
  {| OneSignal.OneSignal := Some sdk_async_id;
     OneSignal.Notification_permission := Some "granted" |}.

(** An SDK that reports nothing: no user, no flag, no id. *)
Definition sdk_silent : OneSignal.Sdk :=
  {| OneSignal.isPushNotificationsSupported := OneSignal.Returns true;
     OneSignal.getNotificationPermission := OneSignal.Returns "default";
     OneSignal.User := None;
     OneSignal.isPushNotificationsEnabled := Some (OneSignal.Returns false);
     OneSignal.getUserId := Some (OneSignal.Returns None) |}.

(** A page that has not been asked for the permission yet; the user grants
    it, [login] is the only subscription method and completes, and the SDK
    still reports nothing afterwards. *)
Definition silent_subscription : OneSignalClient.Subscribing :=
  {| OneSignalClient.page :=
       {| OneSignal.OneSignal := Some sdk_silent;
          OneSignal.Notification_permission := Some "default" |};
     OneSignalClient.methods :=
       {| OneSignalClient.optIn := None;
          OneSignalClient.set_optedIn := OneSignal.Returns tt;
          OneSignalClient.Notifications := None;
          OneSignalClient.login := Some (OneSignal.Returns tt);
          OneSignalClient.showNativePrompt := None;
          OneSignalClient.showSlidedownPrompt := None |};
     OneSignalClient.Notification_requestPermission :=
       OneSignal.Returns "granted";
     OneSignalClient.mid := sdk_silent;
     OneSignalClient.final := sdk_silent |}.

End MoreSamples.

(** * Properties *)

(** ** JavaScript values *)

Module JsFacts.

Import Spec.

Lemma truthy_string_true (s : string) : truthy_string s = true <-> s <> "".
Proof.
  unfold truthy_string. rewrite negb_true_iff. split.
  - intros H ->. discriminate.
  - intros H. destruct (String.eqb_spec s ""); congruence.
Qed.

Lemma Qlt_negb_le (a b : Q) : negb (Qle_bool b a) = true <-> (a < b)%Q.
Proof.
  rewrite negb_true_iff. split.
  - intros H. apply Qnot_le_lt. intros Hle.
    apply Qle_bool_iff in Hle. congruence.
  - intros H. destruct (Qle_bool b a) eqn:E; [|reflexivity].
    apply Qle_bool_iff in E. exfalso. exact (Qlt_not_le _ _ H E).
Qed.

Lemma Qle_negb_lt (a b : Q) : negb (Qle_bool b a) = false <-> (b <= a)%Q.
Proof. rewrite negb_false_iff. apply Qle_bool_iff. Qed.

Lemma lt_below (x y : number) : lt x y = true <-> below x y.
Proof.
  unfold lt. destruct x as [a| | |], y as [b| | |]; simpl;
    try (split; [discriminate|tauto]); try tauto.
  destruct (negb (Qle_bool b a)) eqn:E.
  - apply Qlt_negb_le in E. tauto.
  - split; [discriminate|]. intros H. apply Qlt_negb_le in H. congruence.
Qed.

Lemma ge_at_least (x y : number) : ge x y = true <-> at_least x y.
Proof.
  unfold ge, at_least. destruct x as [a| | |], y as [b| | |]; simpl;
    try (split; [discriminate|tauto]); try tauto.
  destruct (negb (Qle_bool b a)) eqn:E.
  - split; [discriminate|]. intros H. apply Qle_negb_lt in H. congruence.
  - apply Qle_negb_lt in E. tauto.
Qed.

Lemma le_at_most (x y : number) : le x y = true <-> at_most x y.
Proof.
  unfold le. destruct x as [a| | |], y as [b| | |]; simpl;
    try (split; [discriminate|tauto]); try tauto.
  destruct (negb (Qle_bool a b)) eqn:E.
  - split; [discriminate|]. intros H. apply Qle_negb_lt in H. congruence.
  - apply Qle_negb_lt in E. tauto.
Qed.

(** Not being below the threshold is being at least at it, except for NaN,
    which is neither. *)
Lemma lt_false_iff (x y : number) :
  lt x y = false <-> at_least x y \/ x = NaN \/ y = NaN.
Proof.
  destruct (lt x y) eqn:E.
  - apply lt_below in E. split; [discriminate|].
    intros [H|[->| ->]]; exfalso.
    + unfold at_least in H.
      destruct x as [a| | |], y as [b| | |]; simpl in *; try tauto.
      exact (Qlt_not_le _ _ E H).
    + exact E.
    + destruct x; exact E.
  - split; [|reflexivity]. intros _.
    destruct x as [a| | |], y as [b| | |]; auto; left;
      unfold at_least; simpl; auto; try discriminate.
    unfold lt in E. simpl in E.
    destruct (negb (Qle_bool b a)) eqn:E'; [discriminate|].
    now apply Qle_negb_lt in E'.
Qed.

End JsFacts.

(** ** The registry *)

Module RegistryFacts.

Import JsFacts.

(** A valid subscription is always stored: in place of the first record
    with its endpoint, or at the end. *)
Lemma subscribe_stores (subs : Subscriptions) (s : Subscription) :
  endpoint s <> "" ->
  subscribe (Some s) subs =
    let subs' :=
      match list_find (fun sub => endpoint sub = endpoint s) subs with
      | Some (i, _) => <[i := s]> subs
      | None => subs ++ [s]
      end in
    (json [("success", JBool true);
           ("message", JStr "Subscription saved successfully");
           ("totalSubscriptions", JNat (length subs'))],
     subs').
Proof.
  intros Hs. apply truthy_string_true in Hs.
  unfold subscribe. rewrite Hs. simpl.
  destruct (list_find _ subs) as [[i old]|]; reflexivity.
Qed.

(** Without a subscription, or without an endpoint, the request is refused
    and the registry is left as it was. *)
Lemma subscribe_refused (subs : Subscriptions) (o : option Subscription) :
  (forall s, o = Some s -> endpoint s = "") ->
  status (subscribe o subs).1 = 400 /\ (subscribe o subs).2 = subs.
Proof.
  intros Hbad. destruct o as [s|]; [|split; reflexivity].
  unfold subscribe. rewrite (Hbad s eq_refl). split; reflexivity.
Qed.

Lemma known_endpoint_found (subs : Subscriptions) (s : Subscription) :
  endpoint s ∈ endpoint <$> subs ->
  exists i old,
    list_find (fun sub => endpoint sub = endpoint s) subs = Some (i, old).
Proof.
  intros Hin. apply list_elem_of_fmap in Hin as (old & Heq & Hold).
  destruct (list_find_elem_of (fun sub => endpoint sub = endpoint s) subs old)
    as [[i x] Hx]; eauto.
Qed.

Lemma fresh_endpoint_not_found (subs : Subscriptions) (s : Subscription) :
  endpoint s ∉ endpoint <$> subs ->
  list_find (fun sub => endpoint sub = endpoint s) subs = None.
Proof.
  intros Hnin. apply list_find_None, Forall_forall. intros x Hx Heq.
  apply Hnin. rewrite <- Heq. apply list_elem_of_fmap. eauto.
Qed.

(** C3: a valid upsert always succeeds and reports the resulting count; on
    a known endpoint it overwrites the (first) record carrying it and the
    count is unchanged; on a fresh endpoint it appends and the count grows
    by exactly one. *)
Theorem subscribe_upsert (subs : Subscriptions) (s : Subscription) :
  endpoint s <> "" ->
  exists subs',
    subscribe (Some s) subs =
      (json [("success", JBool true);
             ("message", JStr "Subscription saved successfully");
             ("totalSubscriptions", JNat (length subs'))],
       subs')
    /\ (endpoint s ∈ endpoint <$> subs ->
        length subs' = length subs
        /\ exists i old,
             subs !! i = Some old /\ endpoint old = endpoint s
             /\ (forall j x, subs !! j = Some x -> j < i ->
                             endpoint x <> endpoint s)
             /\ subs' = <[i := s]> subs
             /\ subs' !! i = Some s)
    /\ (endpoint s ∉ endpoint <$> subs ->
        subs' = subs ++ [s] /\ length subs' = S (length subs)).
Proof.
  intros Hs. rewrite (subscribe_stores subs s Hs). cbv zeta.
  eexists. split; [reflexivity|]. split.
  - intros Hin. destruct (known_endpoint_found subs s Hin) as (i & old & Hf).
    rewrite Hf. apply list_find_Some in Hf as (Hi & Hold & Hfirst).
    split; [apply length_insert|].
    exists i, old. repeat split; auto.
    apply list_lookup_insert_eq. eapply lookup_lt_Some; eauto.
  - intros Hnin. rewrite (fresh_endpoint_not_found subs s Hnin).
    split; [reflexivity|]. rewrite length_app. simpl. lia.
Qed.

(** The endpoints of the registry stay pairwise distinct under [subscribe]. *)
Lemma subscribe_NoDup (subs : Subscriptions) (o : option Subscription) :
  NoDup (endpoint <$> subs) -> NoDup (endpoint <$> (subscribe o subs).2).
Proof.
  intros Hnd. destruct o as [s|]; [|exact Hnd].
  unfold subscribe. destruct (negb (truthy_string (endpoint s))); [exact Hnd|].
  simpl. destruct (list_find _ subs) as [[i old]|] eqn:Hf; simpl.
  - apply list_find_Some in Hf as (Hi & Hold & _).
    rewrite list_fmap_insert, <- Hold.
    rewrite list_insert_id; [exact Hnd|].
    rewrite list_lookup_fmap, Hi. reflexivity.
  - rewrite fmap_app. simpl. apply NoDup_app. repeat split; auto.
    + intros x Hx Hx'. apply list_elem_of_singleton in Hx'. subst x.
      apply list_find_None in Hf.
      apply list_elem_of_fmap in Hx as (y & Hy & Hin).
      rewrite Forall_forall in Hf. apply (Hf y Hin). congruence.
    + apply NoDup_singleton.
Qed.

(** C8, as the code has it: clearing empties the registry and answers with
    the success flag and a message that spells the number of records
    removed; the response has no other property. *)
Theorem clear_subscriptions_response (subs : Subscriptions) :
  clear_subscriptions subs =
    (json [("success", JBool true);
           ("message",
            JStr ("Cleared " +:+ nat_to_string (length subs)
                  +:+ " subscriptions"))],
     [])
  /\ length (clear_subscriptions subs).2 = 0
  /\ get "count" (content (list_subscriptions (clear_subscriptions subs).2))
     = Some (JNat 0)
  /\ get "success" (content (clear_subscriptions subs).1) = Some (JBool true)
  /\ get "clearedCount" (content (clear_subscriptions subs).1) = None.
Proof. repeat split. Qed.

End RegistryFacts.

(** ** Dispatch *)

Module DispatchFacts.

Import Dispatch Spec.

Section Loop.

Variable world : World.
Variable payload : string.

Lemma attempts_targets n l : fst <$> attempts world payload n l = l.
Proof.
  revert n. induction l as [|s l IH]; intros n; [reflexivity|].
  simpl attempts. rewrite fmap_cons, IH. reflexivity.
Qed.

Lemma length_attempts n l : length (attempts world payload n l) = length l.
Proof. rewrite <- (attempts_targets n l) at 2. now rewrite length_fmap. Qed.


Lemma count_split p l :
  count p l + count (fun a => negb (p a)) l = length l.
Proof.
  unfold count. induction l as [|a l IH]; simpl; [reflexivity|].
  destruct (p a); simpl; lia.
Qed.

Lemma loop_exit fuel st :
  ~ (i st < Z.of_nat (length (subscriptions st)))%Z ->
  loop world fuel payload st = Some st.
Proof. intros H. destruct fuel; simpl; destruct (decide _); tauto. Qed.

Lemma loop_step fuel st s :
  (i st < Z.of_nat (length (subscriptions st)))%Z ->
  at_index (subscriptions st) (i st) = Some s ->
  loop world (S fuel) payload st =
  loop world fuel payload (increment (iteration world payload st s)).
Proof. intros H Hs. simpl. destruct (decide _); [|tauto]. now rewrite Hs. Qed.

Lemma attempts_cons n s rest :
  attempts world payload n (s :: rest) =
  (s, sendNotification world n s payload) :: attempts world payload (S n) rest.
Proof. reflexivity. Qed.

Lemma survivors_cons a l :
  survivors (a :: l) = if gone a then survivors l else a.1 :: survivors l.
Proof. unfold survivors. simpl. now destruct (gone a). Qed.

Lemma count_cons p a l :
  count p (a :: l) = if p a then S (count p l) else count p l.
Proof. unfold count. simpl. now destruct (p a). Qed.

(** Closes the comparison of the state reached through the induction
    hypothesis with the state announced. *)
Ltac same_loop_state :=
  cbv zeta; rewrite length_app; simpl length;
  try match goal with
      | |- context [length ?cs + 1] =>
          replace (length cs + 1) with (S (length cs)) by lia
      end;
  rewrite <- !app_assoc;
  f_equal; f_equal; try reflexivity; lia.

(** The record at the index stays: the index moves past it, and the
    record joins the prefix the loop has dealt with. *)
Ltac keep_record IH fuel pre s rest :=
  replace (Z.of_nat (length pre) + 1)%Z
    with (Z.of_nat (length (pre ++ [s])))
    by (rewrite length_app; simpl; lia);
  rewrite (cons_middle s pre rest), app_assoc;
  rewrite (IH fuel (pre ++ [s])) by lia;
  same_loop_state.

(** The loop, started at index [length pre] with [rest] still ahead of
    it, runs to its exit whenever the bound covers [rest]; it leaves
    [pre] alone, sends once to each element of [rest], and drops from
    the registry those reported gone. *)
Lemma loop_runs rest : forall fuel pre res sc fc cs,
  length rest <= fuel ->
  loop world fuel payload
    {| subscriptions := pre ++ rest; i := Z.of_nat (length pre);
       results := res; successCount := sc; failureCount := fc;
       calls := cs |}
  = let atts := attempts world payload (length cs) rest in
    Some {| subscriptions := pre ++ survivors atts;
            i := Z.of_nat (length (pre ++ survivors atts));
            results := res ++ (entry_of <$> atts);
            successCount := sc + count succeeded atts;
            failureCount := fc + count (fun a => negb (succeeded a)) atts;
            calls := cs ++ rest |}.
Proof.
  induction rest as [|s rest IH]; intros fuel pre res sc fc cs Hfuel.
  - rewrite loop_exit by (simpl; rewrite app_nil_r; lia).
    cbv zeta. unfold survivors, count. simpl.
    now rewrite !app_nil_r, !Nat.add_0_r.
  - destruct fuel as [|fuel]; [simpl in Hfuel; lia|]. simpl in Hfuel.
    rewrite (loop_step fuel _ s); cycle 1.
    { simpl. rewrite length_app. simpl. lia. }
    { unfold at_index. simpl. destruct (decide _) as [_|Hneg]; [|lia].
      rewrite Nat2Z.id. now apply list_lookup_middle. }
    cbv zeta. rewrite attempts_cons, survivors_cons, !count_cons, fmap_cons.
    unfold increment, iteration.
    cbn [subscriptions i results successCount failureCount calls].
    destruct (sendNotification world (length cs) s payload)
      as [code|msg code] eqn:Hout;
      cbn [subscriptions i results successCount failureCount calls
           gone succeeded entry_of fst snd negb].
    + keep_record IH fuel pre s rest.
    + destruct (is_gone code) eqn:Hgone.
      * replace (Z.of_nat (length pre) - 1 + 1)%Z
          with (Z.of_nat (length pre)) by lia.
        rewrite Nat2Z.id.
        replace (delete (length pre) (pre ++ s :: rest)) with (pre ++ rest)
          by (now rewrite delete_middle).
        rewrite (IH fuel pre) by lia.
        same_loop_state.
      * keep_record IH fuel pre s rest.
Qed.

Lemma count_succeeded_pos n l :
  0 < count succeeded (attempts world payload n l) <->
  exists k s code,
    l !! k = Some s /\ sendNotification world (n + k) s payload = Sent code.
Proof.
  revert n. induction l as [|s l IH]; intros n.
  - unfold count. simpl. split; [lia|]. intros (k & s & code & Hk & _).
    destruct k; discriminate.
  - rewrite attempts_cons, count_cons. unfold succeeded at 1. simpl.
    destruct (sendNotification world n s payload) as [code|msg code] eqn:Hout.
    + split; [intros _|lia]. exists 0, s, code.
      now rewrite Nat.add_0_r.
    + rewrite IH. split.
      * intros (k & s' & code' & Hk & Hs). exists (S k), s', code'.
        split; [exact Hk|]. now replace (n + S k) with (S n + k) by lia.
      * intros ([|k] & s' & code' & Hk & Hs).
        -- simpl in Hk. injection Hk as <-.
           rewrite Nat.add_0_r in Hs. congruence.
        -- exists k, s', code'. split; [exact Hk|].
           now replace (S n + k) with (n + S k) by lia.
Qed.

Lemma survivors_elem n l x :
  x ∈ survivors (attempts world payload n l) ->
  exists j,
    l !! j = Some x
    /\ gone (x, sendNotification world (n + j) x payload) = false.
Proof.
  revert n. induction l as [|s l IH]; intros n.
  - unfold survivors. simpl. intros H. now apply elem_of_nil in H.
  - rewrite attempts_cons, survivors_cons.
    destruct (gone (s, sendNotification world n s payload)) eqn:Hg.
    + intros H. destruct (IH _ H) as (j & Hj & Hgj). exists (S j).
      split; [exact Hj|]. now replace (n + S j) with (S n + j) by lia.
    + intros H. apply elem_of_cons in H as [->|H].
      * exists 0. now rewrite Nat.add_0_r.
      * destruct (IH _ H) as (j & Hj & Hgj). exists (S j).
        split; [exact Hj|]. now replace (n + S j) with (S n + j) by lia.
Qed.




Lemma survivors_sublist n l :
  survivors (attempts world payload n l) `sublist_of` l.
Proof.
  revert n. induction l as [|s l IH]; intros n.
  - unfold survivors. simpl. constructor.
  - rewrite attempts_cons, survivors_cons.
    destruct (gone _); simpl; [apply sublist_cons|apply sublist_skip]; apply IH.
Qed.

End Loop.

End DispatchFacts.

Module DispatchTheorems.

Import Dispatch Spec DispatchFacts.

Section Handler.

Variable rt : Runtime.
Variable world : World.
Variable req : Notification.

(** On a registry that is not empty the handler always answers, with
    status 200; the response, the registry left behind and the calls
    made are those of one send per target, in registry order. *)
Lemma send_notification_runs (subs : Subscriptions) :
  subs <> [] ->
  send_notification rt world req subs =
    let atts := sent rt world req subs in
    Some (json [("success", JBool (0 <? count succeeded atts));
                ("message",
                 JStr ("Push sent to "
                       +:+ nat_to_string (count succeeded atts)
                       +:+ "/" +:+ nat_to_string (length subs)
                       +:+ " subscribers"));
                ("results", JArr (entry_of <$> atts));
                ("summary",
                 JObj [("total", JNat (length subs));
                       ("successful", JNat (count succeeded atts));
                       ("failed",
                        JNat (count (fun a => negb (succeeded a)) atts))])],
          survivors atts, subs).
Proof.
  intros Hne. unfold send_notification.
  destruct (Nat.eqb_spec (length subs) 0) as [H0|_].
  { destruct subs; [congruence|discriminate]. }
  pose proof (loop_runs world (payload rt world req) subs (length subs) []
                [] 0 0 [] (le_n _)) as Hrun.
  change ([] ++ subs) with subs in Hrun.
  change (Z.of_nat (length [])) with 0%Z in Hrun.
  rewrite Hrun. cbv zeta. simpl. rewrite length_fmap.
  unfold sent. rewrite length_attempts. reflexivity.
Qed.



(** A dispatch only ever drops records: the endpoints of the registry
    stay pairwise distinct. *)
Lemma send_notification_NoDup (subs : Subscriptions) resp registry calls :
  NoDup (endpoint <$> subs) ->
  send_notification rt world req subs = Some (resp, registry, calls) ->
  NoDup (endpoint <$> registry).
Proof.
  intros Hnd Hrun. destruct subs as [|s subs].
  - simpl in Hrun. injection Hrun as _ <- _. constructor.
  - rewrite send_notification_runs in Hrun by discriminate.
    cbv zeta in Hrun. injection Hrun as _ <- _.
    eapply sublist_NoDup; [exact Hnd|].
    apply fmap_sublist, survivors_sublist.
Qed.



(** C4: on an empty registry the handler answers 400 "No subscriptions
    available" without calling the transport; a dispatch whose sends all
    fail answers 200 with [success: false] and a summary instead. *)
Theorem no_subscribers_fails_fast :
  send_notification rt world req [] =
    Some (status_json 400
            [("error", JStr "No subscriptions available");
             ("hint", JStr "Make sure to subscribe first from the web app")],
          [], [])
  /\ forall subs : Subscriptions,
       subs <> [] ->
       (forall k s, subs !! k = Some s ->
          exists msg code,
            sendNotification world k s (payload rt world req)
              = Failed msg code) ->
       exists resp registry,
         send_notification rt world req subs = Some (resp, registry, subs)
         /\ status resp = 200
         /\ get "success" (content resp) = Some (JBool false)
         /\ get "error" (content resp) = None
         /\ get "summary" (content resp) =
              Some (JObj [("total", JNat (length subs));
                          ("successful", JNat 0);
                          ("failed", JNat (length subs))]).
Proof.
  split; [reflexivity|].
  intros subs Hne Hfail. rewrite (send_notification_runs subs Hne); cbv zeta.
  assert (count succeeded (sent rt world req subs) = 0) as Hzero.
  { destruct (count succeeded (sent rt world req subs)) eqn:E;
      [reflexivity|].
    assert (0 < count succeeded (sent rt world req subs)) as Hpos by lia.
    apply count_succeeded_pos in Hpos as (k & s & code & Hk & Hs).
    destruct (Hfail k s Hk) as (msg & c & Hf). simpl in Hs. congruence. }
  pose proof (count_split succeeded (sent rt world req subs)) as Hsum.
  unfold sent in Hsum at 3. rewrite length_attempts, Hzero in Hsum.
  simpl in Hsum. rewrite Hzero, Hsum.
  eexists _, _. repeat split; reflexivity.
Qed.

(** C10: when at least one send is attempted the handler answers 200 and
    its [success] flag says whether some send succeeded. *)
Theorem success_flag_iff_some_send_succeeded (subs : Subscriptions) :
  subs <> [] ->
  exists resp registry successful failed,
    send_notification rt world req subs = Some (resp, registry, subs)
    /\ status resp = 200
    /\ get "summary" (content resp) =
         Some (JObj [("total", JNat (length subs));
                     ("successful", JNat successful);
                     ("failed", JNat failed)])
    /\ successful + failed = length subs
    /\ get "success" (content resp) = Some (JBool (0 <? successful))
    /\ (1 <= successful <->
        exists k s code,
          subs !! k = Some s
          /\ sendNotification world k s (payload rt world req) = Sent code)
    /\ ((forall k s, subs !! k = Some s ->
           exists msg code,
             sendNotification world k s (payload rt world req)
               = Failed msg code) ->
        get "success" (content resp) = Some (JBool false)
        /\ successful = 0 /\ failed = length subs).
Proof.
  intros Hne. rewrite (send_notification_runs subs Hne); cbv zeta.
  pose proof (count_split succeeded (sent rt world req subs)) as Hsum.
  unfold sent in Hsum at 3. rewrite length_attempts in Hsum.
  eexists _, _, _, _. split; [reflexivity|]. split; [reflexivity|].
  split; [reflexivity|]. split; [exact Hsum|]. split; [reflexivity|].
  assert (1 <= count succeeded (sent rt world req subs) <->
          exists k s code,
            subs !! k = Some s
            /\ sendNotification world k s (payload rt world req) = Sent code)
    as Hiff by (unfold sent; apply count_succeeded_pos).
  split; [exact Hiff|].
  intros Hfail.
  assert (count succeeded (sent rt world req subs) = 0) as Hzero.
  { destruct (count succeeded (sent rt world req subs)) eqn:E;
      [reflexivity|].
    assert (1 <= S n) as Hpos by lia.
    apply Hiff in Hpos as (k & s & code & Hk & Hs).
    destruct (Hfail k s Hk) as (msg & c & Hf). congruence. }
  rewrite Hzero in *. simpl in *. repeat split. exact Hsum.
Qed.

End Handler.

(** Every registry the server can hold has pairwise distinct endpoints. *)
Lemma reachable_NoDup (subs : Subscriptions) :
  reachable subs -> NoDup (endpoint <$> subs).
Proof.
  induction 1
    as [|o subs _ IH|subs _ _|rt world req subs resp registry made _ IH Hrun].
  - constructor.
  - now apply RegistryFacts.subscribe_NoDup.
  - constructor.
  - exact (send_notification_NoDup rt world req subs resp registry made IH Hrun).
Qed.

End DispatchTheorems.

(** ** Conditional notifications *)

Module RulesFacts.

Import Rules Spec JsFacts.

Lemma assoc_set_prop_ne k k' v props :
  k <> k' -> assoc k (set_prop k' v props) = assoc k props.
Proof.
  intros Hne. induction props as [|[k0 v0] props IH]; simpl.
  - destruct (String.eqb_spec k' k); congruence.
  - destruct (String.eqb_spec k0 k') as [->|Hk0]; simpl.
    + destruct (String.eqb_spec k' k); congruence.
    + destruct (String.eqb_spec k0 k); congruence.
Qed.

(** Choosing the recipients leaves the other properties of the payload
    as they are. *)
Lemma with_target_keeps k userId props :
  k <> "include_player_ids" -> k <> "included_segments" ->
  assoc k (with_target userId props) = assoc k props.
Proof.
  intros H1 H2. unfold with_target.
  destruct userId as [u|]; [destruct (truthy_string u)|];
    now apply assoc_set_prop_ne.
Qed.

Section Handlers.

Variable rt : Runtime.
Variable world : World.

(** One request goes out; the answer is the success response exactly
    when the vendor replies [ok], and otherwise status 500 with the
    failure name and no [notified] property. *)
Lemma post_outcome failure payload sent :
  let r := post rt world failure payload sent in
  r.2 = [JObj payload]
  /\ match fetch world (JSON_stringify rt (JObj payload)) with
     | Reply true result => r.1 = json (sent result)
     | _ =>
         status r.1 = 500
         /\ get "error" (content r.1) = Some (JStr failure)
         /\ get "notified" (content r.1) = None
     end.
Proof.
  unfold post.
  destruct (fetch world _) as [msg|[|] result]; simpl; auto.
Qed.

(** Names the payload posted by the handler in the goal and what
    [post_outcome] says about it. *)
Ltac posted Hcalls Hresp :=
  match goal with
  | |- context [post rt world ?f ?p ?s] =>
      destruct (post_outcome f p s) as [Hcalls Hresp];
      set (r := post rt world f p s) in *;
      set (payload := p) in *
  end.


(** The two tests of the price alert, read on the order of numbers. *)
Lemma check_alert_true (req : PriceAlert) :
  (check_alert rt req).1 = true <->
  (pa_alertType req = "above"
   /\ at_least (pa_currentPrice req) (pa_targetPrice req))
  \/ (pa_alertType req = "below"
      /\ at_most (pa_currentPrice req) (pa_targetPrice req)).
Proof.
  unfold check_alert.
  destruct (String.eqb_spec (pa_alertType req) "above") as [Ha|Ha];
    destruct (ge (pa_currentPrice req) (pa_targetPrice req)) eqn:Hge;
    simpl.
  1: { apply ge_at_least in Hge. tauto. }
  all: destruct (String.eqb_spec (pa_alertType req) "below") as [Hb|Hb];
    destruct (le (pa_currentPrice req) (pa_targetPrice req)) eqn:Hle;
    simpl.
  all: try (apply le_at_most in Hle).
  all: try (assert (~ at_most (pa_currentPrice req) (pa_targetPrice req))
              by (intros Hm; apply le_at_most in Hm; congruence)).
  all: try (assert (~ at_least (pa_currentPrice req) (pa_targetPrice req))
              by (intros Hm; apply ge_at_least in Hm; congruence)).
  all: try (split; [discriminate|]; intros [[? ?]|[? ?]]; congruence || tauto).
  all: try (split; [|reflexivity]; intros _; tauto).
Qed.

(** C6: the alert triggers, that is, a notification is posted, exactly
    when the type is 'above' and the current price is at least the
    target, or the type is 'below' and it is at most the target; a check
    that does not trigger answers [notified: false] and posts nothing. *)
Theorem price_alert_triggers_iff_crossed (req : PriceAlert) :
  let crossed :=
    (pa_alertType req = "above"
     /\ at_least (pa_currentPrice req) (pa_targetPrice req))
    \/ (pa_alertType req = "below"
        /\ at_most (pa_currentPrice req) (pa_targetPrice req)) in
  let r := price_alert rt world req in
  ((check_alert rt req).1 = true <-> crossed)
  /\ (crossed <-> exists payload, r.2 = [JObj payload])
  /\ (crossed ->
      exists payload,
        r.2 = [JObj payload]
        /\ assoc "contents" payload =
             Some (JObj [("en", JStr (check_alert rt req).2)]))
  /\ (~ crossed ->
      r = (json [("success", JBool true);
                 ("message",
                  JStr "Price checked but alert conditions not met");
                 ("notified", JBool false);
                 ("currentPrice", JNum (pa_currentPrice req));
                 ("targetPrice", JNum (pa_targetPrice req))],
           [])).
Proof.
  cbv zeta. pose proof (check_alert_true req) as Hiff.
  split; [exact Hiff|]. unfold price_alert.
  destruct (check_alert rt req) as [[|] alertMessage]; simpl in Hiff;
    cbn [negb fst snd].
  - assert (Hc := proj1 Hiff eq_refl).
    posted Hcalls Hresp.
    split; [|split; [|tauto]].
    + split; [eauto|tauto].
    + intros _. exists payload. split; [exact Hcalls|].
      unfold payload. now rewrite with_target_keeps by discriminate.
  - assert (~ ((pa_alertType req = "above"
                /\ at_least (pa_currentPrice req) (pa_targetPrice req))
               \/ (pa_alertType req = "below"
                   /\ at_most (pa_currentPrice req) (pa_targetPrice req))))
      as Hn by (intros H; apply Hiff in H; discriminate).
    split; [|split; [tauto|reflexivity]].
    split; [tauto|]. intros [p Hp]. discriminate.
Qed.

(** C7: an event is dropped without any request to the vendor exactly
    when its severity is 'low' (an absent severity counts as 'normal');
    any other severity posts one request, whose title starts with the
    siren for 'high' and with the chart otherwise. *)
Theorem market_event_severity (req : MarketEvent) :
  let severity := default "normal" (me_severity req) in
  let eventTitle :=
    or_default (me_title req) ("📈 Market Event: " +:+ me_eventType req) in
  let r := market_event rt world req in
  (severity = "low" <-> r.2 = [])
  /\ (severity = "low" ->
      r = (json [("success", JBool true);
                 ("message",
                  JStr "Event received but severity too low for notification");
                 ("notified", JBool false)],
           []))
  /\ (severity <> "low" ->
      exists payload,
        r.2 = [JObj payload]
        /\ (severity = "high" ->
            assoc "headings" payload =
              Some (JObj [("en", JStr ("🚨" +:+ " " +:+ eventTitle))]))
        /\ (severity <> "high" ->
            assoc "headings" payload =
              Some (JObj [("en", JStr ("📊" +:+ " " +:+ eventTitle))])))
  /\ "🚨" <> "📊".
Proof.
  cbv zeta. unfold market_event.
  destruct (String.eqb_spec (default "normal" (me_severity req)) "low")
    as [Hlow|Hlow].
  - repeat split; try tauto; discriminate.
  - posted Hcalls Hresp.
    split; [|split; [tauto|split; [|discriminate]]].
    + split; [tauto|]. rewrite Hcalls. discriminate.
    + intros _. exists payload. split; [exact Hcalls|].
      unfold payload. rewrite with_target_keeps by discriminate.
      destruct (String.eqb_spec (default "normal" (me_severity req)) "high");
        split; intros; try tauto; reflexivity.
Qed.

End Handlers.

End RulesFacts.

(** ** The status probe *)

Module OneSignalFacts.

Import OneSignal.

(** Whatever the SDK answers, a status that carries a subscriber id says
    subscribed. *)
Lemma status_with_id_is_subscribed (w : Window) :
  truthy_opt (userId (getOneSignalStatus w)) = true ->
  isSubscribed (getOneSignalStatus w) = true.
Proof.
  unfold getOneSignalStatus.
  destruct (OneSignal w) as [sdk|]; [|discriminate].
  destruct (read_notificationPermission w sdk) as [p|]; [|discriminate].
  simpl. intros ->. now destruct (read_isSubscribed sdk).
Qed.

(** C9: when the probe gets as far as reading the subscriber id and
    obtains one, while the read of the opt-in flag threw or gave false,
    the status returned reports [isSubscribed = true] along with that id. *)
Theorem subscriber_id_overrides_flag (w : Window) (sdk : Sdk)
    (permission u : string) :
  OneSignal w = Some sdk ->
  read_notificationPermission w sdk = Returns permission ->
  subscriber_id sdk = Returns (Some u) ->
  u <> "" ->
  subscription_flag sdk = Throws \/ subscription_flag sdk = Returns false ->
  getOneSignalStatus w =
    {| isSupported := true;
       isInitialized := true;
       isPushSupported := read_isPushSupported sdk;
       notificationPermission := permission;
       isSubscribed := true;
       userId := Some u |}.
Proof.
  intros Hsdk Hperm Hid Hu Hflag.
  unfold getOneSignalStatus. rewrite Hsdk, Hperm.
  unfold read_userId, read_isSubscribed. rewrite Hid.
  apply JsFacts.truthy_string_true in Hu.
  destruct Hflag as [-> | ->]; simpl; now rewrite Hu.
Qed.

End OneSignalFacts.

(** ** The theorems at work on concrete requests *)

Module Examples.

Import Spec Samples.
Import RegistryFacts DispatchTheorems RulesFacts OneSignalFacts.

(** Re-registering the endpoint of [subA] with rotated keys. *)
Lemma subscribe_upsert_witness :
  endpoint subA' <> ""
  /\ exists subs',
       subscribe (Some subA') [subB; subA] =
         (json [("success", JBool true);
                ("message", JStr "Subscription saved successfully");
                ("totalSubscriptions", JNat (length subs'))],
          subs')
       /\ (endpoint subA' ∈ endpoint <$> [subB; subA] ->
           length subs' = length [subB; subA]
           /\ exists i old,
                [subB; subA] !! i = Some old /\ endpoint old = endpoint subA'
                /\ (forall j x, [subB; subA] !! j = Some x -> j < i ->
                                endpoint x <> endpoint subA')
                /\ subs' = <[i := subA']> [subB; subA]
                /\ subs' !! i = Some subA')
       /\ (endpoint subA' ∉ endpoint <$> [subB; subA] ->
           subs' = [subB; subA] ++ [subA']
           /\ length subs' = S (length [subB; subA])).
Proof.
  split; [discriminate|].
  apply (subscribe_upsert [subB; subA] subA'). discriminate.
Defined.

(** Clearing a registry of one record: no [clearedCount] in the answer. *)
Lemma clear_subscriptions_has_no_clearedCount :
  ~ (exists n,
       get "clearedCount" (content (clear_subscriptions [subA]).1) = Some n)
  /\ content (clear_subscriptions [subA]).1 =
       JObj [("success", JBool true);
             ("message", JStr "Cleared 1 subscriptions")].
Proof. split; [intros [n Hn]; discriminate|reflexivity]. Qed.




(** The empty registry against a registry whose sends all time out. *)
Lemma no_subscribers_fails_fast_witness :
  Dispatch.send_notification ascii_runtime unreachable test_push [] =
    Some (status_json 400
            [("error", JStr "No subscriptions available");
             ("hint", JStr "Make sure to subscribe first from the web app")],
          [], [])
  /\ exists resp registry,
       Dispatch.send_notification ascii_runtime unreachable test_push
         [subA; subB] = Some (resp, registry, [subA; subB])
       /\ status resp = 200
       /\ get "success" (content resp) = Some (JBool false)
       /\ get "error" (content resp) = None
       /\ get "summary" (content resp) =
            Some (JObj [("total", JNat (length [subA; subB]));
                        ("successful", JNat 0);
                        ("failed", JNat (length [subA; subB]))]).
Proof.
  destruct (no_subscribers_fails_fast ascii_runtime unreachable test_push)
    as [Hempty Hfailed].
  split; [exact Hempty|].
  apply (Hfailed [subA; subB]); [discriminate|].
  intros k s _. exists "connect ETIMEDOUT", None. reflexivity.
Defined.

(** One success out of two sends. *)
Lemma success_flag_iff_some_send_succeeded_witness :
  [subA; subB] <> []
  /\ exists resp registry successful failed,
       Dispatch.send_notification ascii_runtime b_is_gone test_push [subA; subB]
         = Some (resp, registry, [subA; subB])
       /\ status resp = 200
       /\ get "summary" (content resp) =
            Some (JObj [("total", JNat (length [subA; subB]));
                        ("successful", JNat successful);
                        ("failed", JNat failed)])
       /\ successful + failed = length [subA; subB]
       /\ get "success" (content resp) = Some (JBool (0 <? successful))
       /\ (1 <= successful <->
           exists k s code,
             [subA; subB] !! k = Some s
             /\ Dispatch.sendNotification b_is_gone k s
                  (Dispatch.payload ascii_runtime b_is_gone test_push)
                = Dispatch.Sent code)
       /\ ((forall k s, [subA; subB] !! k = Some s ->
              exists msg code,
                Dispatch.sendNotification b_is_gone k s
                  (Dispatch.payload ascii_runtime b_is_gone test_push)
                = Dispatch.Failed msg code) ->
           get "success" (content resp) = Some (JBool false)
           /\ successful = 0 /\ failed = length [subA; subB]).
Proof.
  split; [discriminate|].
  apply (success_flag_iff_some_send_succeeded ascii_runtime b_is_gone
           test_push [subA; subB]).
  discriminate.
Defined.


Lemma not_below_75_75 : ~ below (of_Z 75) (of_Z 75).
Proof. intros H. discriminate H. Defined.



Lemma at_least_100_100 : at_least (of_Z 100) (of_Z 100).
Proof. discriminate. Defined.

Lemma not_at_least_99_100 : ~ at_least (of_Z 99) (of_Z 100).
Proof. intros H. apply H. reflexivity. Defined.

(** 'above' with current 100 and target 100 triggers; with current 99 it
    does not, and nothing is posted. *)
Lemma price_alert_triggers_iff_crossed_witness :
  (exists payload,
     (Rules.price_alert ascii_runtime accepting (alert "above" 100 100)).2
       = [JObj payload]
     /\ assoc "contents" payload =
          Some (JObj [("en", JStr "BTC reached $100 (above target $100)")]))
  /\ Rules.price_alert ascii_runtime accepting (alert "above" 99 100) =
       (json [("success", JBool true);
              ("message", JStr "Price checked but alert conditions not met");
              ("notified", JBool false);
              ("currentPrice", JNum (of_Z 99));
              ("targetPrice", JNum (of_Z 100))],
        []).
Proof.
  destruct (price_alert_triggers_iff_crossed ascii_runtime accepting
              (alert "above" 100 100)) as (_ & _ & Hyes & _).
  destruct (price_alert_triggers_iff_crossed ascii_runtime accepting
              (alert "above" 99 100)) as (_ & _ & _ & Hno).
  split.
  - apply Hyes. left. split; [reflexivity|exact at_least_100_100].
  - apply Hno. intros [[_ H]|[H _]];
      [exact (not_at_least_99_100 H)|discriminate H].
Defined.

(** A 'high' event is posted with the siren; a 'low' one is dropped. *)
Lemma market_event_severity_witness :
  (exists payload,
     (Rules.market_event ascii_runtime accepting (event (Some "high"))).2
       = [JObj payload]
     /\ assoc "headings" payload =
          Some (JObj [("en", JStr "🚨 📈 Market Event: EARNINGS")]))
  /\ (exists payload,
        (Rules.market_event ascii_runtime accepting (event None)).2
          = [JObj payload]
        /\ assoc "headings" payload =
             Some (JObj [("en", JStr "📊 📈 Market Event: EARNINGS")]))
  /\ Rules.market_event ascii_runtime accepting (event (Some "low")) =
       (json [("success", JBool true);
              ("message",
               JStr "Event received but severity too low for notification");
              ("notified", JBool false)],
        []).
Proof.
  destruct (market_event_severity ascii_runtime accepting (event (Some "high")))
    as (_ & _ & Hhigh & _).
  destruct (market_event_severity ascii_runtime accepting (event None))
    as (_ & _ & Hnormal & _).
  destruct (market_event_severity ascii_runtime accepting (event (Some "low")))
    as (_ & Hlow & _).
  split; [|split].
  - destruct Hhigh as (p & Hp & Hh & _); [discriminate|].
    exists p. split; [exact Hp|]. apply Hh. reflexivity.
  - destruct Hnormal as (p & Hp & _ & Hn); [discriminate|].
    exists p. split; [exact Hp|]. apply Hn. discriminate.
  - apply Hlow. reflexivity.
Defined.

(** The subscriber id is known and the opt-in read throws. *)
Lemma subscriber_id_overrides_flag_witness :
  OneSignal.OneSignal flag_unreadable = Some sdk_flag_unreadable
  /\ OneSignal.read_notificationPermission flag_unreadable sdk_flag_unreadable
     = OneSignal.Returns "granted"
  /\ OneSignal.subscriber_id sdk_flag_unreadable
     = OneSignal.Returns (Some "user-42")
  /\ "user-42" <> ""
  /\ OneSignal.subscription_flag sdk_flag_unreadable = OneSignal.Throws
  /\ OneSignal.getOneSignalStatus flag_unreadable =
       {| OneSignal.isSupported := true;
          OneSignal.isInitialized := true;
          OneSignal.isPushSupported := true;
          OneSignal.notificationPermission := "granted";
          OneSignal.isSubscribed := true;
          OneSignal.userId := Some "user-42" |}.
Proof.
  repeat (split; [reflexivity || discriminate|]).
  apply (subscriber_id_overrides_flag flag_unreadable sdk_flag_unreadable
           "granted" "user-42");
    [reflexivity|reflexivity|reflexivity|discriminate|left; reflexivity].
Defined.

End Examples.

(** * More properties *)

(** ** The registry, beyond the upsert *)

Module RegistryMore.

Import JsFacts RegistryFacts.

(** After a valid [subscribe] the first record found under the endpoint is
    the one submitted. *)
Lemma subscribe_then_find (subs : Subscriptions) (s : Subscription) :
  endpoint s <> "" ->
  exists i,
    list_find (fun sub => endpoint sub = endpoint s) (subscribe (Some s) subs).2
    = Some (i, s)
    /\ (subscribe (Some s) subs).2 = <[i := s]> (subscribe (Some s) subs).2.
Proof.
  intros Hs. rewrite (subscribe_stores subs s Hs). cbv zeta. simpl.
  destruct (list_find _ subs) as [[i old]|] eqn:Hf.
  - apply list_find_Some in Hf as (Hi & Hold & Hfirst).
    assert (i < length subs) as Hlt by (eapply lookup_lt_Some; eauto).
    exists i. split; [|now rewrite list_insert_insert_eq].
    apply list_find_Some. split; [now apply list_lookup_insert_eq|].
    split; [reflexivity|].
    intros j x Hj Hji. rewrite list_lookup_insert_ne in Hj by lia. eauto.
  - exists (length subs). split.
    + apply list_find_Some. split.
      { rewrite lookup_app_r by lia. now rewrite Nat.sub_diag. }
      split; [reflexivity|].
      intros j x Hj Hlt. rewrite lookup_app_l in Hj by exact Hlt.
      apply list_find_None in Hf. rewrite Forall_forall in Hf.
      apply Hf. eapply list_elem_of_lookup_2; eauto.
    + replace (length subs) with (length subs + 0) by lia.
      now rewrite insert_app_r.
Qed.

(** X1: registering the same subscription twice is registering it once:
    the second request gets the same answer and leaves the registry as the
    first left it (also when the subscription is refused). *)
Theorem subscribe_twice (subs : Subscriptions) (o : option Subscription) :
  subscribe o (subscribe o subs).2 = subscribe o subs.
Proof.
  destruct o as [s|]; [|reflexivity].
  destruct (String.eqb_spec (endpoint s) "") as [He|Hs].
  - unfold subscribe, truthy_string. rewrite He. reflexivity.
  - destruct (subscribe_then_find subs s Hs) as (i & Hfind & Hsame).
    rewrite (subscribe_stores _ s Hs). cbv zeta.
    rewrite Hfind, <- Hsame.
    rewrite (subscribe_stores subs s Hs). reflexivity.
Qed.

Lemma filter_insert_other {A} (P : A -> Prop) `{!forall x, Decision (P x)}
    (l : list A) i x y :
  l !! i = Some x -> ~ P x -> ~ P y -> filter P (<[i := y]> l) = filter P l.
Proof.
  revert i. induction l as [|a l IH]; intros [|i] Hi Hx Hy; try discriminate.
  - injection Hi as ->. simpl.
    rewrite !filter_cons. destruct (decide (P y)), (decide (P x)); tauto.
  - simpl in *. rewrite !filter_cons. rewrite (IH i Hi Hx Hy). reflexivity.
Qed.

(** X2: a valid [subscribe] is an insertion under the endpoint: looking the
    endpoint up afterwards finds the submitted record, and the records
    filed under any other endpoint are the same as before, in the same
    order. *)
Theorem subscribe_lookup_and_frame (subs : Subscriptions) (s : Subscription) :
  endpoint s <> "" ->
  (exists i,
      list_find (fun sub => endpoint sub = endpoint s)
        (subscribe (Some s) subs).2 = Some (i, s))
  /\ forall e,
       e <> endpoint s ->
       filter (fun sub => endpoint sub = e) (subscribe (Some s) subs).2
       = filter (fun sub => endpoint sub = e) subs.
Proof.
  intros Hs. split.
  - destruct (subscribe_then_find subs s Hs) as (i & Hfind & _). eauto.
  - intros e He. rewrite (subscribe_stores subs s Hs). cbv zeta. simpl.
    destruct (list_find _ subs) as [[i old]|] eqn:Hf.
    + apply list_find_Some in Hf as (Hi & Hold & _).
      apply (filter_insert_other _ subs i old s Hi); congruence.
    + rewrite filter_app, filter_cons.
      destruct (decide (endpoint s = e)); [congruence|].
      now rewrite app_nil_r.
Qed.

(** X3: a request is answered 200 exactly when it carries a subscription
    with an endpoint; any other request is answered 400 and leaves the
    registry untouched, and an accepted subscription is in the registry
    afterwards. *)
Theorem subscribe_accepts_iff_endpoint (subs : Subscriptions)
    (o : option Subscription) :
  (status (subscribe o subs).1 = 200 <-> exists s, o = Some s /\ endpoint s <> "")
  /\ (status (subscribe o subs).1 <> 200 ->
      status (subscribe o subs).1 = 400 /\ (subscribe o subs).2 = subs)
  /\ (forall s, o = Some s -> endpoint s <> "" -> s ∈ (subscribe o subs).2).
Proof.
  destruct o as [s|].
  - destruct (String.eqb_spec (endpoint s) "") as [He|Hs].
    + unfold subscribe, truthy_string. rewrite He. simpl.
      split; [|split].
      * split; [discriminate|]. intros (s' & [= <-] & Hne). congruence.
      * intros _. split; reflexivity.
      * intros s' [= <-] Hne. congruence.
    + destruct (subscribe_then_find subs s Hs) as (i & Hfind & _).
      apply list_find_Some in Hfind as (Hi & _ & _).
      rewrite (subscribe_stores subs s Hs) in *. cbv zeta in *. simpl in *.
      split; [|split].
      * split; [eauto|reflexivity].
      * intros H. contradiction.
      * intros s' [= <-] _. eapply list_elem_of_lookup_2; eauto.
  - simpl. split; [|split].
    + split; [discriminate|]. intros (s & H & _). discriminate.
    + intros _. split; reflexivity.
    + intros s H. discriminate.
Qed.

End RegistryMore.

(** ** The registry across requests, and what a dispatch leaves of it *)

Module DispatchMore.

Import Dispatch Spec JsFacts RegistryFacts DispatchFacts DispatchTheorems.

(** X4: whatever sequence of subscribe, clear and dispatch requests the
    server has served, no two records of its registry share an endpoint and
    no record has an empty one. *)
Theorem reachable_registry_keys (subs : Subscriptions) :
  reachable subs ->
  NoDup (endpoint <$> subs) /\ Forall (fun s => endpoint s <> "") subs.
Proof.
  intros Hreach. split; [now apply reachable_NoDup|].
  induction Hreach
    as [|o subs _ IH|subs _ _|rt world req subs resp registry made _ IH Hrun].
  - constructor.
  - destruct o as [s|]; [|exact IH].
    destruct (String.eqb_spec (endpoint s) "") as [He|Hs].
    + unfold subscribe, truthy_string. rewrite He. exact IH.
    + rewrite (subscribe_stores subs s Hs). cbv zeta. simpl.
      destruct (list_find _ subs) as [[i old]|].
      * now apply Forall_insert.
      * apply Forall_app. split; [exact IH|]. now constructor.
  - constructor.
  - destruct subs as [|s subs].
    + simpl in Hrun. injection Hrun as _ <- _. constructor.
    + rewrite send_notification_runs in Hrun by discriminate.
      cbv zeta in Hrun. injection Hrun as _ <- _.
      rewrite Forall_forall in *. intros x Hx. apply IH.
      eapply elem_of_sublist; [exact Hx|]. apply survivors_sublist.
Qed.

Section Handler.

Variable rt : Runtime.
Variable world : World.

(** Where no send is answered 410, every record survives. *)
Lemma survivors_all payload n (l : Subscriptions) :
  (forall k s, l !! k = Some s ->
     gone (s, sendNotification world (n + k) s payload) = false) ->
  survivors (attempts world payload n l) = l.
Proof.
  revert n. induction l as [|s l IH]; intros n Hkeep; [reflexivity|].
  rewrite attempts_cons, survivors_cons.
  pose proof (Hkeep 0 s eq_refl) as H0. rewrite Nat.add_0_r in H0.
  rewrite H0. simpl. f_equal. apply IH. intros k x Hk.
  replace (S n + k) with (n + S k) by lia. now apply (Hkeep (S k)).
Qed.


(** X6: with a push service whose answer depends on the subscription
    alone, one dispatch cleans the registry for good: a second dispatch,
    of any notification, leaves the registry exactly as the first left
    it. *)
Theorem second_dispatch_removes_nothing (req req' : Notification)
    (subs : Subscriptions) resp registry made :
  (forall n m s p q,
      sendNotification world n s p = sendNotification world m s q) ->
  send_notification rt world req subs = Some (resp, registry, made) ->
  exists resp',
    send_notification rt world req' registry = Some (resp', registry, registry).
Proof.
  intros Hstable Hrun. destruct subs as [|s0 subs].
  - simpl in Hrun. injection Hrun as _ <- _. eexists. reflexivity.
  - rewrite send_notification_runs in Hrun by discriminate.
    cbv zeta in Hrun. injection Hrun as _ Hreg _.
    destruct registry as [|r0 registry]; [eexists; reflexivity|].
    rewrite send_notification_runs by discriminate. cbv zeta.
    eexists. f_equal. f_equal. f_equal.
    unfold sent. apply survivors_all. intros k s Hk.
    assert (s ∈ survivors (sent rt world req (s0 :: subs))) as Hin.
    { rewrite Hreg. eapply list_elem_of_lookup_2; eauto. }
    apply survivors_elem in Hin as (j & _ & Hj).
    unfold gone in *. simpl in *.
    now rewrite (Hstable _ (0 + j) s _ (payload rt world req)).
Qed.

End Handler.

End DispatchMore.

(** ** What the listing shows *)

Module ListingFacts.

Import SpecMore.




End ListingFacts.

(** ** Relaying to OneSignal *)

Module RelayFacts.

Import Rules Relay Spec JsFacts RulesFacts.


Section Handlers.

Variable rt : Runtime.
Variable world : World.

(** One request goes out, and the answer is 200 exactly when the reply is
    [ok] and carries a truthy [id]; it is 500 otherwise. *)
Lemma relay_outcome failure success recipients payload :
  let r := relay rt world failure success recipients payload in
  r.2 = [JObj payload]
  /\ (status r.1 = 200 <->
      exists result id,
        fetch world (JSON_stringify rt (JObj payload)) = Reply true result
        /\ get "id" result = Some id /\ truthy id = true)
  /\ (status r.1 = 200 \/ status r.1 = 500).
Proof.
  unfold relay.
  destruct (fetch world _) as [message|[|] result]; simpl.
  - split; [reflexivity|]. split; [|now right].
    split; [discriminate|]. intros (? & ? & ? & _). discriminate.
  - destruct result as [|b|n|s|items|props]; simpl.
    6: destruct (assoc "id" props) as [id|] eqn:Hid;
         [destruct (truthy id) eqn:Ht|].
    6: { split; [reflexivity|]. split; [|now left].
         split; [|reflexivity]. intros _. exists (JObj props), id. auto. }
    all: split; [reflexivity|]; split; [|now right];
      (split; [discriminate|]);
      intros (r0 & id' & Heq & Hget & Ht'); injection Heq as <-;
      simpl in Hget; congruence.
  - split; [reflexivity|]. split; [|now right].
    split; [discriminate|]. intros (? & ? & ? & _). discriminate.
Qed.

(** The success response says so. *)
Lemma relay_success failure success recipients payload :
  let r := relay rt world failure success recipients payload in
  status r.1 = 200 -> get "success" (content r.1) = Some (JBool true).
Proof.
  unfold relay.
  destruct (fetch world _) as [message|[|] result]; simpl;
    try discriminate.
  destruct result as [|b|n|s|items|props]; simpl; try discriminate.
  destruct (assoc "id" props) as [id|]; simpl; [|discriminate].
  destruct (truthy id); simpl; [reflexivity|discriminate].
Qed.

(** X8: [/api/onesignal-send] answers 400 without contacting OneSignal when
    the request names no user; otherwise it posts exactly one notification,
    addressed to that user alone and to no segment, and answers 200 exactly
    when OneSignal's reply is ok and carries a notification id, 500 in
    every other case. *)
Theorem onesignal_send_outcome (req : Direct) :
  let r := onesignal_send rt world req in
  (truthy_opt (dm_userId req) = false ->
   r = (status_json 400
          [("error", JStr "OneSignal user ID required");
           ("hint", JStr "Make sure user is subscribed to OneSignal first")],
        []))
  /\ (forall u,
        dm_userId req = Some u -> u <> "" ->
        exists payload,
          r.2 = [JObj payload]
          /\ assoc "include_player_ids" payload = Some (JArr [JStr u])
          /\ assoc "included_segments" payload = None
          /\ (status r.1 = 200 <->
              exists result id,
                fetch world (JSON_stringify rt (JObj payload))
                  = Reply true result
                /\ get "id" result = Some id /\ truthy id = true)
          /\ (status r.1 = 200 \/ status r.1 = 500)).
Proof.
  cbv zeta. unfold onesignal_send. split.
  - destruct (dm_userId req) as [u|]; simpl; [|reflexivity].
    now intros ->.
  - intros u -> Hu. apply truthy_string_true in Hu. rewrite Hu.
    match goal with
    | |- context [relay rt world ?f ?s ?d ?p] =>
        destruct (relay_outcome f s d p) as (Hcalls & Hok & Hstatus);
        exists p
    end.
    split; [exact Hcalls|]. split; [reflexivity|]. split; [reflexivity|].
    split; [exact Hok|exact Hstatus].
Qed.


(** X10: the handlers do not agree on what a sent notification is. When
    OneSignal replies ok without a notification id (its answer when no
    recipient is subscribed), the two relaying handlers answer 500, while
    the trading-signal handler answers 200 with [notified: true]. *)
Theorem accepted_without_id (result : Json) (signal : TradingSignal)
    (b : Broadcast) (d : Direct) :
  (forall body, fetch world body = Reply true result) ->
  (forall id, get "id" result = Some id -> truthy id = false) ->
  ~ below (ts_confidence signal) (of_Z 75) ->
  truthy_opt (dm_userId d) = true ->
  status (onesignal_broadcast rt world b).1 = 500
  /\ status (onesignal_send rt world d).1 = 500
  /\ status (trading_signal rt world signal).1 = 200
  /\ get "notified" (content (trading_signal rt world signal).1)
     = Some (JBool true).
Proof.
  intros Hreply Hid Hconf Hd.
  assert (forall failure success recipients payload,
             status (relay rt world failure success recipients payload).1
             = 500) as Hrelay.
  { intros f s r p.
    destruct (relay_outcome f s r p) as (_ & Hok & [H200|H500]);
      [|exact H500].
    apply Hok in H200 as (r0 & id & Hf & Hget & Ht).
    rewrite Hreply in Hf. injection Hf as <-.
    rewrite (Hid id Hget) in Ht. discriminate. }
  split; [apply Hrelay|]. split.
  - unfold onesignal_send. destruct (dm_userId d) as [u|]; [|discriminate].
    simpl in Hd. rewrite Hd. apply Hrelay.
  - unfold trading_signal.
    destruct (lt (ts_confidence signal) (of_Z 75)) eqn:Hlt.
    { apply lt_below in Hlt. contradiction. }
    unfold post. rewrite Hreply. simpl. split; reflexivity.
Qed.

End Handlers.

End RelayFacts.

(** ** Objects and their spreading *)

Module ObjectFacts.

Import RulesFacts.

Lemma assoc_set_prop_eq k v props : assoc k (set_prop k v props) = Some v.
Proof.
  induction props as [|[k0 v0] props IH]; simpl.
  - now rewrite String.eqb_refl.
  - destruct (String.eqb_spec k0 k) as [->|Hne]; simpl.
    + now rewrite String.eqb_refl.
    + destruct (String.eqb_spec k0 k); congruence.
Qed.

Lemma assoc_app k l1 l2 :
  assoc k (l1 ++ l2) =
  match assoc k l1 with Some v => Some v | None => assoc k l2 end.
Proof.
  induction l1 as [|[k0 v0] l1 IH]; simpl; [reflexivity|].
  now destruct (String.eqb k0 k).
Qed.

(** In [{ ...base, ...extra }] a property has the value [extra] gives it
    last, and the value of [base] if [extra] does not have it. *)
Lemma assoc_spread k extra : forall base,
  assoc k (spread base extra) =
  match assoc k (reverse extra) with
  | Some v => Some v
  | None => assoc k base
  end.
Proof.
  unfold spread.
  induction extra as [|[k' v'] extra IH]; intros base; simpl; [reflexivity|].
  rewrite IH, reverse_cons, assoc_app. simpl.
  destruct (assoc k (reverse extra)); [reflexivity|].
  destruct (String.eqb_spec k' k) as [->|Hne].
  - apply assoc_set_prop_eq.
  - apply assoc_set_prop_ne. congruence.
Qed.

Lemma assoc_None k props : assoc k props = None <-> k ∉ props.*1.
Proof.
  induction props as [|[k0 v0] props IH]; simpl.
  - split; [intros _ H; now apply elem_of_nil in H|reflexivity].
  - destruct (String.eqb_spec k0 k) as [->|Hne].
    + split; [discriminate|]. intros H. exfalso. apply H. now left.
    + rewrite IH. split.
      * intros H Hin. apply elem_of_cons in Hin as [->|Hin]; tauto.
      * intros H Hin. apply H. now right.
Qed.

Lemma assoc_Some_elem k v props : assoc k props = Some v -> (k, v) ∈ props.
Proof.
  induction props as [|[k0 v0] props IH]; simpl; [discriminate|].
  destruct (String.eqb_spec k0 k) as [->|Hne].
  - intros [= ->]. now left.
  - intros H. right. auto.
Qed.

Lemma elem_assoc_Some k v props :
  NoDup props.*1 -> (k, v) ∈ props -> assoc k props = Some v.
Proof.
  induction props as [|[k0 v0] props IH]; simpl; intros Hnd Hin.
  - now apply elem_of_nil in Hin.
  - apply NoDup_cons in Hnd as [Hk0 Hnd].
    apply elem_of_cons in Hin as [[= -> ->]|Hin].
    + now rewrite String.eqb_refl.
    + destruct (String.eqb_spec k0 k) as [->|Hne]; [|auto].
      exfalso. apply Hk0. apply list_elem_of_fmap. now exists (k, v).
Qed.

Lemma keys_set_prop k v props :
  (set_prop k v props).*1 =
  if bool_decide (k ∈ props.*1) then props.*1 else props.*1 ++ [k].
Proof.
  induction props as [|[k0 v0] props IH]; [reflexivity|].
  cbn [set_prop]. destruct (String.eqb_spec k0 k) as [->|Hne].
  - rewrite !fmap_cons. cbn [fst].
    rewrite bool_decide_eq_true_2; [reflexivity|now left].
  - rewrite !fmap_cons, IH. cbn [fst].
    destruct (bool_decide (k ∈ props.*1)) eqn:Hin.
    + apply bool_decide_eq_true in Hin.
      rewrite bool_decide_eq_true_2; [reflexivity|now right].
    + apply bool_decide_eq_false in Hin.
      rewrite bool_decide_eq_false_2; [reflexivity|].
      intros H. apply elem_of_cons in H as [->|H]; tauto.
Qed.

(** Spreading keeps the properties of the base, and keeps the names
    distinct. *)
Lemma keys_spread extra : forall base,
  NoDup base.*1 ->
  NoDup (spread base extra).*1 /\ base.*1 ⊆ (spread base extra).*1.
Proof.
  unfold spread.
  induction extra as [|[k v] extra IH]; intros base Hnd; simpl.
  - split; [exact Hnd|reflexivity].
  - assert (NoDup (set_prop k v base).*1 /\ base.*1 ⊆ (set_prop k v base).*1)
      as [Hnd' Hsub].
    { rewrite keys_set_prop. destruct (bool_decide (k ∈ base.*1)) eqn:Hin.
      - split; [exact Hnd|reflexivity].
      - apply bool_decide_eq_false in Hin. split.
        + apply NoDup_app. repeat split; [exact Hnd| |apply NoDup_singleton].
          intros x Hx Hx'. apply list_elem_of_singleton in Hx'. now subst.
        + intros x Hx. apply elem_of_app. now left. }
    destruct (IH _ Hnd') as [Hnd'' Hsub'].
    split; [exact Hnd''|]. etrans; eauto.
Qed.

(** Reading a property of an object whose names are distinct does not
    depend on the direction of the search. *)
Lemma assoc_reverse k props :
  NoDup props.*1 -> assoc k (reverse props) = assoc k props.
Proof.
  intros Hnd. destruct (assoc k props) as [v|] eqn:H.
  - apply elem_assoc_Some.
    + now rewrite fmap_reverse, reverse_Permutation.
    + apply elem_of_reverse. now apply assoc_Some_elem.
  - apply assoc_None. rewrite fmap_reverse, elem_of_reverse.
    now apply assoc_None.
Qed.

(** Spreading an object over properties it already has leaves, under
    every name, the value of the object. *)
Lemma spread_over_own base props :
  NoDup props.*1 -> base.*1 ⊆ props.*1 ->
  forall k, assoc k (spread base props) = assoc k props.
Proof.
  intros Hnd Hsub k. rewrite assoc_spread, (assoc_reverse k props Hnd).
  destruct (assoc k props) eqn:H; [reflexivity|].
  apply assoc_None. intros Hin. apply assoc_None in H. auto.
Qed.

End ObjectFacts.

(** ** The service worker *)

Module ServiceWorkerFacts.

Import OneSignal ServiceWorker Wire JsFacts ObjectFacts.

Lemma truthy_or_else v d : truthy d = true -> truthy (or_else v d) = true.
Proof.
  intros Hd. unfold or_else. destruct v as [j|]; [|exact Hd].
  now destruct (truthy j) eqn:Hj.
Qed.

Lemma or_else_truthy j d : truthy j = true -> or_else (Some j) d = j.
Proof. intros Hj. unfold or_else. now rewrite Hj. Qed.

(** Whatever the message, the title, the body and the icon read from it
    are truthy. *)
Lemma read_push_truthy (data : option PushMessageData) :
  truthy (nd_title (read_push data)) = true
  /\ truthy (nd_body (read_push data)) = true
  /\ truthy (nd_icon (read_push data)) = true.
Proof.
  assert (forall text,
             truthy (nd_title (with_text text)) = true
             /\ truthy (nd_body (with_text text)) = true
             /\ truthy (nd_icon (with_text text)) = true) as Htext.
  { intros text. unfold with_text. simpl.
    destruct (truthy_string text) eqn:Ht; simpl; auto. }
  unfold read_push. destruct data as [d|]; [|simpl; auto].
  destruct (pm_json d) as [pushData|]; [|apply Htext].
  destruct pushData; try apply Htext; simpl;
    repeat split; repeat apply truthy_or_else; reflexivity.
Qed.

(** X11: a push event always ends in a notification, whatever the message
    holds (nothing, text that is not JSON, JSON without the fields): the
    worker calls [showNotification] once, and once more when that call
    fails, with only the body and the icon; in every call the title, the
    body and the icon are truthy. *)
Theorem push_always_shows (now : Z) (first_show : Call unit)
    (data : option PushMessageData) :
  let shows := on_push now first_show data in
  (length shows = 2 <-> first_show = Throws)
  /\ (length shows = 1 <-> first_show <> Throws)
  /\ Forall (fun shown =>
               truthy shown.1 = true
               /\ exists b i,
                    assoc "body" shown.2 = Some b /\ truthy b = true
                    /\ assoc "icon" shown.2 = Some i /\ truthy i = true)
            shows
  /\ (forall shown,
        shows !! 1 = Some shown ->
        exists b i, shown.2 = [("body", b); ("icon", i)]).
Proof.
  cbv zeta. unfold on_push.
  destruct (read_push_truthy data) as (Ht & Hb & Hi).
  assert (forall opts,
             truthy (nd_title (read_push data)) = true
             /\ exists b i,
                  assoc "body"
                    ([("body", nd_body (read_push data));
                      ("icon", nd_icon (read_push data))] ++ opts) = Some b
                  /\ truthy b = true
                  /\ assoc "icon"
                       ([("body", nd_body (read_push data));
                         ("icon", nd_icon (read_push data))] ++ opts) = Some i
                  /\ truthy i = true) as Hshown.
  { intros opts. split; [exact Ht|]. eexists _, _. simpl. eauto. }
  destruct first_show as [[]|]; simpl length.
  - split; [split; [lia|discriminate]|]. split; [split; [discriminate|lia]|].
    split; [|intros shown Hs; discriminate Hs].
    constructor; [|constructor]. apply (Hshown (_ :: _)).
  - split; [split; [reflexivity|lia]|]. split; [split; [lia|congruence]|].
    split.
    + constructor; [apply (Hshown (_ :: _))|].
      constructor; [apply (Hshown [])|constructor].
    + intros shown [= <-]. eexists _, _. reflexivity.
Qed.

Lemma or_default_truthy (o : option string) (d : string) :
  d <> "" -> truthy (JStr (or_default o d)) = true.
Proof.
  intros Hd. simpl. apply truthy_string_true.
  unfold or_default. destruct o as [s|]; [|exact Hd].
  destruct (truthy_string s) eqn:Hs; [|exact Hd].
  now apply truthy_string_true.
Qed.

Lemma or_else_default (v : option string) (d : string) (e : Json) :
  d <> "" -> or_else (Some (JStr (or_default v d))) e = JStr (or_default v d).
Proof. intros Hd. apply or_else_truthy. now apply or_default_truthy. Qed.

(** The data [/api/send-notification] puts in its payload. *)
Lemma sent_data_names (sworld : Dispatch.World) (req : Dispatch.Notification) n :
  let sent_data :=
    spread [("url", JStr "/");
            ("timestamp", JInt (Dispatch.Date_now sworld n));
            ("source", JStr "node-server")] (Dispatch.data req) in
  NoDup sent_data.*1 /\ ["url"; "timestamp"] ⊆ sent_data.*1.
Proof.
  cbv zeta.
  match goal with
  | |- context [spread ?base ?extra] =>
      destruct (keys_spread extra base) as [Hnd Hsub]
  end.
  { simpl. repeat (apply NoDup_cons; split;
                   [rewrite ?elem_of_cons, ?elem_of_nil;
                    intuition discriminate|]).
    constructor. }
  split; [exact Hnd|]. intros x Hx. apply Hsub. simpl.
  rewrite !elem_of_cons in *. tauto.
Qed.

(** What the worker reads from the object the server serialised. *)
Lemma read_push_of_payload (sworld : Dispatch.World)
    (req : Dispatch.Notification) (text : string) :
  read_push (Some {| pm_json := Returns (payload_object sworld req);
                     pm_text := text |})
  = {| nd_title :=
         JStr (or_default (Dispatch.title req) "🚀 React Push Test");
       nd_body :=
         JStr (or_default (Dispatch.body req)
                 "Real push notification from server!");
       nd_icon := JStr (or_default (Dispatch.icon req) "/vite.svg");
       nd_badge := JStr (or_default (Dispatch.badge req) "/vite.svg");
       nd_tag :=
         Some (JStr (or_default (Dispatch.tag req)
                       ("server-push-"
                        +:+ Z_to_string (Dispatch.Date_now sworld 0))));
       nd_data :=
         Some (JObj (spread
                       [("url", JStr "/");
                        ("timestamp",
                         JInt (Dispatch.Date_now sworld
                                 (if truthy_opt (Dispatch.tag req)
                                  then 0 else 1)));
                        ("source", JStr "node-server")]
                       (Dispatch.data req))) |}.
Proof.
  unfold read_push, payload_object. cbn [pm_json pm_text get assoc].
  simpl String.eqb. cbv iota.
  rewrite !or_else_default by discriminate. reflexivity.
Qed.

(** X12: what the subscriber sees is what the requester asked for. When
    the message parses to the object [/api/send-notification] serialised,
    the worker shows the title, body, icon, badge and tag of the request,
    or the server's default where the request had none or an empty one,
    and the data of the notification are the data of that object under
    every name: the worker's own [url] and [timestamp] never survive. *)
Theorem push_shows_what_the_server_sent (rt : Runtime)
    (sworld : Dispatch.World) (req : Dispatch.Notification)
    (now : Z) (first_show : Call unit) (text : string) :
  let pushData := payload_object sworld req in
  let shows :=
    on_push now first_show
      (Some {| pm_json := Returns pushData; pm_text := text |}) in
  Dispatch.payload rt sworld req = JSON_stringify rt pushData
  /\ exists opts shown_data sent_data,
       shows !! 0
       = Some (JStr (or_default (Dispatch.title req) "🚀 React Push Test"),
               opts)
       /\ assoc "body" opts
          = Some (JStr (or_default (Dispatch.body req)
                          "Real push notification from server!"))
       /\ assoc "icon" opts
          = Some (JStr (or_default (Dispatch.icon req) "/vite.svg"))
       /\ assoc "badge" opts
          = Some (JStr (or_default (Dispatch.badge req) "/vite.svg"))
       /\ assoc "tag" opts
          = Some (JStr (or_default (Dispatch.tag req)
                          ("server-push-"
                           +:+ Z_to_string (Dispatch.Date_now sworld 0))))
       /\ assoc "data" opts = Some (JObj shown_data)
       /\ get "data" pushData = Some (JObj sent_data)
       /\ forall k, assoc k shown_data = assoc k sent_data.
Proof.
  cbv zeta. split; [reflexivity|].
  unfold on_push. rewrite read_push_of_payload.
  cbn [nd_title nd_body nd_icon nd_badge nd_tag nd_data].
  destruct (sent_data_names sworld req
              (if truthy_opt (Dispatch.tag req) then 0 else 1)) as [Hnd Hsub].
  eexists _, _, _. split.
  { destruct first_show as [[]|]; reflexivity. }
  unfold options. cbn [nd_body nd_icon nd_badge nd_tag nd_data opt_prop
                       own_props app assoc].
  simpl String.eqb. cbv iota.
  do 5 (split; [reflexivity|]). split; [reflexivity|].
  apply spread_over_own; [exact Hnd|exact Hsub].
Qed.

(** The client found is the first one that shows the address and can be
    focused; none is found only if there is no such client. *)
Lemma first_match_Some urlToOpen clientList : forall n i,
  first_match urlToOpen n clientList = Some i ->
  exists client,
    n <= i /\ clientList !! (i - n) = Some client
    /\ urlToOpen = JStr (wc_url client) /\ wc_focusable client = true
    /\ forall j other,
         j < i - n -> clientList !! j = Some other ->
         ~ (urlToOpen = JStr (wc_url other) /\ wc_focusable other = true).
Proof.
  induction clientList as [|c rest IH]; intros n i Hfind; [discriminate|].
  simpl in Hfind.
  assert (first_match urlToOpen (S n) rest = Some i ->
          ~ (urlToOpen = JStr (wc_url c) /\ wc_focusable c = true) ->
          exists client,
            n <= i /\ (c :: rest) !! (i - n) = Some client
            /\ urlToOpen = JStr (wc_url client) /\ wc_focusable client = true
            /\ forall j other,
                 j < i - n -> (c :: rest) !! j = Some other ->
                 ~ (urlToOpen = JStr (wc_url other)
                    /\ wc_focusable other = true)) as Hnext.
  { intros Hrest Hc. destruct (IH _ _ Hrest) as (cl & Hle & Hl & Hu & Hf & Hmin).
    exists cl. split; [lia|].
    replace (i - n) with (S (i - S n)) by lia.
    split; [exact Hl|]. split; [exact Hu|]. split; [exact Hf|].
    intros [|j] other Hj Hother.
    - injection Hother as <-. exact Hc.
    - apply (Hmin j other); [lia|exact Hother]. }
  destruct urlToOpen as [| | |u| |];
    try (apply Hnext; [exact Hfind|intros [? _]; discriminate]).
  destruct (String.eqb (wc_url c) u) eqn:Heq;
    [destruct (wc_focusable c) eqn:Hfc|]; simpl in Hfind.
  - apply String.eqb_eq in Heq. subst u.
    injection Hfind as <-. exists c. rewrite Nat.sub_diag.
    repeat split; auto. intros j other Hj. lia.
  - apply Hnext; [exact Hfind|]. intros [_ ?]. congruence.
  - apply String.eqb_neq in Heq.
    apply Hnext; [exact Hfind|]. intros [? _]. congruence.
Qed.

Lemma first_match_None urlToOpen clientList : forall n,
  first_match urlToOpen n clientList = None ->
  forall client,
    client ∈ clientList ->
    ~ (urlToOpen = JStr (wc_url client) /\ wc_focusable client = true).
Proof.
  induction clientList as [|c rest IH]; intros n Hfind client Hin.
  - now apply elem_of_nil in Hin.
  - simpl in Hfind. apply elem_of_cons in Hin as [->|Hin].
    + intros [-> Hf]. rewrite String.eqb_refl, Hf in Hfind. discriminate.
    + destruct urlToOpen as [| | |u| |]; try (eapply IH; eauto; fail).
      destruct (String.eqb (wc_url c) u && wc_focusable c);
        [discriminate|eapply IH; eauto].
Qed.

(** X13: a click always closes the notification first. On the 'dismiss'
    action nothing else happens. Otherwise the worker focuses the first
    window that shows exactly the address of the notification (or "/" when
    it has none) and can be focused, and opens a window at that address
    only when there is no such window and the browser lets it; it never
    does both. *)
Theorem click_focuses_or_opens (action : string) (data : option Json)
    (matchAll : Call (list WindowClient)) (openWindow : bool) :
  let urlToOpen := or_else (data ≫= get "url") (JStr "/") in
  let effects := on_notificationclick action data matchAll openWindow in
  (action = "dismiss" -> effects = [Close])
  /\ (effects = [Close]
      \/ (exists i, effects = [Close; Focus i])
      \/ effects = [Close; OpenWindow urlToOpen])
  /\ (forall i,
        effects = [Close; Focus i] ->
        exists clientList client,
          matchAll = Returns clientList /\ clientList !! i = Some client
          /\ urlToOpen = JStr (wc_url client) /\ wc_focusable client = true
          /\ forall j other,
               j < i -> clientList !! j = Some other ->
               ~ (urlToOpen = JStr (wc_url other)
                  /\ wc_focusable other = true))
  /\ (effects = [Close; OpenWindow urlToOpen] ->
      openWindow = true
      /\ exists clientList,
           matchAll = Returns clientList
           /\ forall client,
                client ∈ clientList ->
                ~ (urlToOpen = JStr (wc_url client)
                   /\ wc_focusable client = true)).
Proof.
  cbv zeta. unfold on_notificationclick.
  destruct (String.eqb_spec action "dismiss") as [Hd|Hd].
  { split; [reflexivity|]. split; [now left|].
    split; [intros i H; discriminate H|intros H; discriminate H]. }
  split; [contradiction|].
  destruct matchAll as [clientList|].
  2: { split; [now left|].
       split; [intros i H; discriminate H|intros H; discriminate H]. }
  destruct (first_match _ 0 clientList) as [i|] eqn:Hfind.
  - split; [right; left; eauto|]. split; [|intros H; discriminate H].
    intros i' [= <-].
    destruct (first_match_Some _ _ _ _ Hfind)
      as (client & _ & Hi & Hu & Hf & Hmin).
    rewrite Nat.sub_0_r in *. exists clientList, client. auto.
  - destruct openWindow.
    + split; [now right; right|]. split; [intros i H; discriminate H|].
      intros _. split; [reflexivity|]. exists clientList.
      split; [reflexivity|]. now apply (first_match_None _ _ 0).
    + split; [now left|].
      split; [intros i H; discriminate H|intros H; discriminate H].
Qed.

End ServiceWorkerFacts.

(** ** The page and the server *)

Module ClientFacts.

Import Dispatch Spec Client JsFacts RegistryFacts DispatchFacts DispatchTheorems.


(** X15: [sendSubscriptionToServer], run against the server, returns true
    exactly when the subscription has an endpoint and the note in
    [localStorage] could be written; the note is written only then. When
    that write fails the page reports a failure although the server has
    registered the subscription. *)
Theorem subscription_reaches_the_registry (rt : Runtime) (s : Subscription)
    (subs : Subscriptions) (statusText : string) (setItem : OneSignal.Call unit) :
  let r := subscribe (Some s) subs in
  let sending := sendSubscriptionToServer rt s (delivered statusText r.1) setItem in
  (sending.1 = true <-> endpoint s <> "" /\ setItem = OneSignal.Returns tt)
  /\ (sending.2 <> None <-> sending.1 = true)
  /\ (sending.1 = true -> s ∈ r.2)
  /\ (endpoint s <> "" -> setItem = OneSignal.Throws ->
      sending.1 = false /\ s ∈ r.2).
Proof.
  cbv zeta.
  destruct (String.eqb_spec (endpoint s) "") as [He|Hs].
  - unfold subscribe, truthy_string. rewrite He. simpl.
    unfold sendSubscriptionToServer. simpl.
    repeat split; try discriminate; try tauto; intros [? _]; congruence.
  - assert (s ∈ (subscribe (Some s) subs).2) as Hin.
    { destruct (RegistryMore.subscribe_then_find subs s Hs) as (i & Hf & _).
      apply list_find_Some in Hf as (Hi & _). eapply list_elem_of_lookup_2; eauto. }
    revert Hin. rewrite (subscribe_stores subs s Hs). cbv zeta. intros Hin.
    unfold sendSubscriptionToServer, delivered, request, json, Client.succeeded.
    cbn [fst snd status content response_ok]. simpl.
    destruct setItem as [[]|]; simpl;
      repeat split; try discriminate; try tauto; try congruence.
    intros [_ ?]. discriminate.
Qed.

(** X16: [requestNotificationPermission] never returns anything but
    'granted'; it asks the user only when the browser supports push and the
    permission is neither granted nor denied yet, and a permission already
    denied makes it fail without asking. *)
Theorem permission_is_granted_or_thrown (b : Browser) :
  let answer := requestNotificationPermission b in
  (forall p, answer.1 = Ok p -> p = "granted" /\ isPushNotificationSupported b = true)
  /\ (answer.2 = true <->
      isPushNotificationSupported b = true
      /\ permission b <> "granted" /\ permission b <> "denied")
  /\ (permission b = "denied" -> exists message, answer = (Err message, false)).
Proof.
  cbv zeta. unfold requestNotificationPermission.
  destruct (isPushNotificationSupported b); simpl.
  2: { split; [intros p H; discriminate H|]. split; [|eauto].
       split; [discriminate|]. intros [H _]. discriminate. }
  destruct (String.eqb_spec (permission b) "granted") as [Hg|Hg].
  { split; [intros p [= <-]; auto|]. split; [|intros Hd; congruence].
    split; [discriminate|]. intros (_ & H & _). congruence. }
  destruct (String.eqb_spec (permission b) "denied") as [Hd|Hd].
  { split; [intros p H; discriminate H|]. split; [|eauto].
    split; [discriminate|]. intros (_ & _ & H). congruence. }
  split; [|split; [|contradiction]].
  2: { destruct (requestPermission b) as [p'|message];
         [destruct (negb (String.eqb p' "granted"))|]; simpl; tauto. }
  intros p. destruct (requestPermission b) as [p'|message]; [|discriminate].
  destruct (String.eqb_spec p' "granted") as [->|Hp]; simpl.
  - intros [= <-]. auto.
  - discriminate.
Qed.

Import Stdlib.Strings.Ascii.






End ClientFacts.

(** ** The OneSignal helpers of the page *)

Module OneSignalClientFacts.

Import OneSignal OneSignalClient JsFacts.

(** The flag after the override. *)
Lemma subscribed_value (sdk : Sdk) :
  (if negb (read_isSubscribed sdk) && truthy_opt (read_userId sdk)
   then true else read_isSubscribed sdk) = true
  <-> subscription_flag sdk = Returns true
      \/ exists u, subscriber_id sdk = Returns (Some u) /\ u <> "".
Proof.
  unfold read_isSubscribed, read_userId.
  destruct (subscription_flag sdk) as [[|]|]; simpl.
  - split; auto.
  - destruct (subscriber_id sdk) as [[u|]|]; simpl.
    + destruct (truthy_string u) eqn:Hu.
      * split; [|reflexivity]. intros _. right. exists u.
        split; [reflexivity|]. now apply truthy_string_true.
      * split; [discriminate|]. intros [H|(u' & [= <-] & Hne)];
          [discriminate|]. apply truthy_string_true in Hne. congruence.
    + split; [discriminate|]. intros [H|(u' & H & _)]; discriminate.
    + split; [discriminate|]. intros [H|(u' & H & _)]; discriminate.
  - destruct (subscriber_id sdk) as [[u|]|]; simpl.
    + destruct (truthy_string u) eqn:Hu.
      * split; [|reflexivity]. intros _. right. exists u.
        split; [reflexivity|]. now apply truthy_string_true.
      * split; [discriminate|]. intros [H|(u' & [= <-] & Hne)];
          [discriminate|]. apply truthy_string_true in Hne. congruence.
    + split; [discriminate|]. intros [H|(u' & H & _)]; discriminate.
    + split; [discriminate|]. intros [H|(u' & H & _)]; discriminate.
Qed.

(** X18: [getOneSignalStatus] reports the SDK as supported exactly when
    the SDK is loaded and the permission could be read, and it reports
    the user as subscribed exactly when, in addition, the opt-in flag
    reads true or a subscriber id is found; in every other case the
    status is the all-negative one. *)
Theorem status_reading (w : Window) :
  let st := getOneSignalStatus w in
  (isSupported st = true <->
   exists sdk p,
     OneSignal w = Some sdk /\ read_notificationPermission w sdk = Returns p)
  /\ (isSupported st = false -> st = unavailable)
  /\ (isSubscribed st = true <->
      exists sdk p,
        OneSignal w = Some sdk
        /\ read_notificationPermission w sdk = Returns p
        /\ (subscription_flag sdk = Returns true
            \/ exists u, subscriber_id sdk = Returns (Some u) /\ u <> "")).
Proof.
  cbv zeta. unfold getOneSignalStatus.
  destruct (OneSignal w) as [sdk|].
  2: { simpl. split; [|split; [reflexivity|]];
         (split; [discriminate|intros (? & ? & H & _); discriminate H]). }
  destruct (read_notificationPermission w sdk) as [p|] eqn:Hperm.
  2: { simpl. split; [|split; [reflexivity|]]; (split; [discriminate|]).
       - intros (? & ? & [= <-] & H). congruence.
       - intros (? & ? & [= <-] & H & _). congruence. }
  simpl. split; [split; eauto|]. split; [discriminate|].
  rewrite subscribed_value. split.
  - intros H. exists sdk, p. auto.
  - intros (? & ? & [= <-] & _ & H). exact H.
Qed.

(** The two places that look the subscriber id up agree. *)
Lemma getOneSignalUserId_read (w : Window) (sdk : Sdk) :
  OneSignal w = Some sdk -> getOneSignalUserId w = read_userId sdk.
Proof.
  intros Hsdk. unfold getOneSignalUserId, read_userId, subscriber_id.
  rewrite Hsdk.
  destruct (User sdk) as [user|].
  - destruct (truthy_opt (onesignalId user)); [reflexivity|].
    destruct (PushSubscription user) as [ps|].
    + destruct (truthy_opt (id ps)); [reflexivity|].
      destruct (getIdAsync ps) as [[u|]|]; try reflexivity.
      now destruct (getUserId sdk) as [[u|]|].
    + now destruct (getUserId sdk) as [[u|]|].
  - now destruct (getUserId sdk) as [[u|]|].
Qed.

(** X19: the subscriber id shown in the status is the one
    [getOneSignalUserId] returns, whenever the status reports the SDK as
    supported; and [getOneSignalUserId] returns nothing when the SDK is not
    loaded. *)
Theorem status_id_is_user_id (w : Window) :
  (isSupported (getOneSignalStatus w) = true ->
   userId (getOneSignalStatus w) = getOneSignalUserId w)
  /\ (OneSignal w = None -> getOneSignalUserId w = None).
Proof.
  split.
  - unfold getOneSignalStatus.
    destruct (OneSignal w) as [sdk|] eqn:Hsdk; [|discriminate].
    destruct (read_notificationPermission w sdk); [|discriminate].
    intros _. simpl. symmetry. now apply getOneSignalUserId_read.
  - intros Hnone. unfold getOneSignalUserId. now rewrite Hnone.
Qed.

(** What the [catch] of [sendOneSignalNotification] amounts to. *)
Lemma truthy_or_else_false (v : option Json) :
  truthy (or_else v (JBool false)) = true
  <-> exists j, v = Some j /\ truthy j = true.
Proof.
  unfold or_else. destruct v as [j|]; simpl.
  - destruct (truthy j) eqn:Hj.
    + split; [eauto|]. intros _. exact Hj.
    + simpl. split; [discriminate|]. intros (j' & [= <-] & H). congruence.
  - split; [discriminate|]. intros (j & H & _). discriminate.
Qed.

Lemma fallback_spec (w : Window) (new_Notification : Call unit)
    (body : option Relay.Direct) :
  let f := fallback w new_Notification body in
  posted f = body
  /\ returned f = local_shown f
  /\ (local_shown f = true <->
      Notification_permission w = Some "granted"
      /\ new_Notification = Returns tt).
Proof.
  cbv zeta. unfold fallback.
  destruct (Notification_permission w) as [p|]; simpl.
  - destruct (String.eqb_spec p "granted") as [->|Hp].
    + destruct new_Notification as [[]|]; simpl; repeat split; auto;
        try discriminate. intros [_ H]. discriminate.
    + simpl. repeat split; try discriminate. intros [[= H] _]. congruence.
  - repeat split; try discriminate. intros [H _]. discriminate.
Qed.

(** X20: [sendOneSignalNotification] contacts the server only once it
    holds a subscriber id, which it puts in the request with the title and
    the message; it returns true exactly when the server's answer is ok
    and says [success], or when, after any failure, a local notification
    could be shown instead, which requires the permission to be granted. *)
Theorem send_needs_an_id (w : Window) (new_Notification : Call unit)
    (now : Z) (title message : string) (data : list (string * Json))
    (reply : Client.HttpOutcome) :
  let sending :=
    sendOneSignalNotification w new_Notification now title message data reply in
  (forall body,
     posted sending = Some body ->
     exists sdk u,
       OneSignal w = Some sdk /\ known_id sdk = Returns (Some u) /\ u <> ""
       /\ Relay.dm_userId body = Some u
       /\ Relay.dm_title body = Some title
       /\ Relay.dm_message body = Some message)
  /\ (returned sending = true <->
      (posted sending <> None
       /\ exists status statusText result success,
            reply = Client.HttpReply status statusText (Ok result)
            /\ Client.response_ok status = true
            /\ get "success" result = Some success
            /\ truthy success = true)
      \/ local_shown sending = true)
  /\ (local_shown sending = true ->
      Notification_permission w = Some "granted").
Proof.
  cbv zeta. unfold sendOneSignalNotification.
  assert (forall body,
             let f := fallback w new_Notification body in
             body = None
             \/ ~ (exists status statusText result success,
                     reply = Client.HttpReply status statusText (Ok result)
                     /\ Client.response_ok status = true
                     /\ get "success" result = Some success
                     /\ truthy success = true) ->
             (returned f = true <->
              (posted f <> None
               /\ exists status statusText result success,
                    reply = Client.HttpReply status statusText (Ok result)
                    /\ Client.response_ok status = true
                    /\ get "success" result = Some success
                    /\ truthy success = true)
              \/ local_shown f = true)
             /\ (local_shown f = true ->
                 Notification_permission w = Some "granted")) as Hfall.
  { intros body f Hno.
    destruct (fallback_spec w new_Notification body) as (Hp & Hret & Hshown).
    fold f in Hp, Hret, Hshown. rewrite Hret, Hp. split; [|tauto].
    split; [tauto|]. intros [[Hb H]|H]; [|exact H].
    destruct Hno as [Hno|Hno]; contradiction. }
  assert (forall P : Relay.Direct -> Prop,
             forall body, posted (fallback w new_Notification None) = Some body ->
                          P body) as Hnone.
  { intros P body.
    destruct (fallback_spec w new_Notification None) as (-> & _).
    discriminate. }
  destruct (OneSignal w) as [sdk|] eqn:Hsdk.
  2: { split; [apply Hnone|]. apply Hfall. now left. }
  destruct (known_id sdk) as [userId|] eqn:Hid.
  2: { split; [apply Hnone|]. apply Hfall. now left. }
  destruct (truthy_opt userId) eqn:Hu; simpl.
  2: { split; [apply Hnone|]. apply Hfall. now left. }
  destruct userId as [u|]; [|discriminate]. simpl in Hu.
  apply truthy_string_true in Hu.
  match goal with
  | |- context [fallback w new_Notification (Some ?b)] => set (body := b)
  end.
  assert (forall s : Sending,
             posted s = Some body ->
             forall body0,
               posted s = Some body0 ->
               exists sdk0 u0,
                 Some sdk = Some sdk0 /\ known_id sdk0 = Returns (Some u0)
                 /\ u0 <> ""
                 /\ Relay.dm_userId body0 = Some u0
                 /\ Relay.dm_title body0 = Some title
                 /\ Relay.dm_message body0 = Some message) as Hbody.
  { intros s Hs body0 Hs0. rewrite Hs in Hs0. injection Hs0 as <-.
    exists sdk, u. repeat split; auto. }
  assert (posted (fallback w new_Notification (Some body)) = Some body)
    as Hposted by (now destruct (fallback_spec w new_Notification (Some body))).
  destruct reply as [m|status statusText [result|m]].
  - split; [now apply Hbody|]. apply Hfall. right.
    intros (?&?&?&?&H&_). discriminate.
  - destruct (Client.response_ok status
              && truthy (or_else (get "success" result) (JBool false)))
      eqn:Hc.
    + apply andb_true_iff in Hc as [Hok Ht].
      apply truthy_or_else_false in Ht as (success & Hs & Ht).
      split; [now apply Hbody|]. simpl. split; [|discriminate].
      split; [|reflexivity]. intros _. left. split; [discriminate|].
      exists status, statusText, result, success. auto.
    + split; [now apply Hbody|]. apply Hfall. right.
      intros (?&?&?&success&[= <- <- <-]&Hok&Hg&Ht).
      rewrite Hok in Hc. simpl in Hc.
      assert (truthy (or_else (get "success" result) (JBool false)) = true)
        by (apply truthy_or_else_false; eauto).
      congruence.
  - split; [now apply Hbody|]. apply Hfall. right.
    intros (?&?&?&?&H&_). discriminate.
Qed.

(** X21: when the request of [sendOneSignalNotification] is answered by
    [/api/onesignal-send], the server never refuses it for a missing user:
    it posts one notification to OneSignal, addressed to the id the page
    found, under the title and the message given. If OneSignal accepts it
    the page returns true without a local notification; if not, the page
    returns true exactly when it could show a local notification instead. *)
Theorem onesignal_test_end_to_end (rt : Runtime) (world : Rules.World)
    (w : Window) (new_Notification : Call unit) (now : Z)
    (title message : string) (data : list (string * Json))
    (statusText : string) (reply : Client.HttpOutcome) (body : Relay.Direct) :
  let sending :=
    sendOneSignalNotification w new_Notification now title message data reply in
  let served := Relay.onesignal_send rt world body in
  posted sending = Some body ->
  reply = Client.delivered statusText served.1 ->
  exists u payload,
    Relay.dm_userId body = Some u /\ u <> ""
    /\ status served.1 <> 400
    /\ served.2 = [JObj payload]
    /\ assoc "include_player_ids" payload = Some (JArr [JStr u])
    /\ assoc "headings" payload = Some (JObj [("en", JStr title)])
    /\ assoc "contents" payload = Some (JObj [("en", JStr message)])
    /\ let accepted :=
         exists result id,
           Rules.fetch world (JSON_stringify rt (JObj payload))
             = Rules.Reply true result
           /\ get "id" result = Some id /\ truthy id = true in
       (accepted -> returned sending = true /\ local_shown sending = false)
       /\ (~ accepted ->
           (returned sending = true <->
            Notification_permission w = Some "granted"
            /\ new_Notification = Returns tt)
           /\ local_shown sending = returned sending).
Proof.
  cbv zeta. unfold sendOneSignalNotification.
  destruct (OneSignal w) as [sdk|].
  2: { destruct (fallback_spec w new_Notification None) as (-> & _).
       discriminate. }
  destruct (known_id sdk) as [userId|].
  2: { destruct (fallback_spec w new_Notification None) as (-> & _).
       discriminate. }
  destruct (truthy_opt userId) eqn:Hu; simpl.
  2: { destruct (fallback_spec w new_Notification None) as (-> & _).
       discriminate. }
  destruct userId as [u|]; [|discriminate]. simpl in Hu.
  match goal with
  | |- context [fallback w new_Notification (Some ?b)] => set (body0 := b)
  end.
  intros Hposted Hreply.
  assert (body = body0) as ->.
  { destruct (fallback_spec w new_Notification (Some body0)) as (Hp & _).
    destruct reply as [m|st txt [result|m]]; try congruence.
    destruct (andb _ _); [simpl in Hposted|]; congruence. }
  clear Hposted. subst reply.
  unfold Client.delivered, Relay.onesignal_send.
  cbn [body0 Relay.dm_userId Relay.dm_title Relay.dm_message Relay.dm_data].
  rewrite Hu.
  match goal with
  | |- context [Relay.relay rt world ?f ?s ?d ?p] =>
      destruct (RelayFacts.relay_outcome rt world f s d p)
        as (Hcalls & Hok & Hstatus);
      pose proof (RelayFacts.relay_success rt world f s d p) as Hsucc;
      cbv zeta in Hsucc;
      set (r := Relay.relay rt world f s d p) in *;
      exists u, p
  end.
  split; [reflexivity|]. split; [now apply truthy_string_true|].
  split; [destruct Hstatus as [-> | ->]; discriminate|].
  split; [exact Hcalls|]. do 3 (split; [reflexivity|]).
  destruct (fallback_spec w new_Notification (Some body0))
    as (_ & Hret & Hshown).
  split.
  - intros Hacc. apply Hok in Hacc. rewrite Hacc, (Hsucc Hacc). simpl.
    split; reflexivity.
  - intros Hno. destruct Hstatus as [H200|H500]; [tauto|].
    rewrite H500. simpl. rewrite Hret. split; [exact Hshown|reflexivity].
Qed.

(** X22: an id that only [User.PushSubscription.getIdAsync] gives is seen
    by the status and by [getOneSignalUserId], but not by
    [sendOneSignalNotification]: the status shows the user as subscribed
    under that id, while the test notification is never posted to the
    server. *)
Theorem id_from_getIdAsync_is_not_sent (w : Window) (sdk : Sdk)
    (user : UserNamespace) (ps : SubscriptionId) (u p : string)
    (new_Notification : Call unit) (now : Z) (title message : string)
    (data : list (string * Json)) (reply : Client.HttpOutcome) :
  OneSignal w = Some sdk ->
  read_notificationPermission w sdk = Returns p ->
  User sdk = Some user ->
  truthy_opt (onesignalId user) = false ->
  PushSubscription user = Some ps ->
  truthy_opt (id ps) = false ->
  getIdAsync ps = Some (Returns (Some u)) ->
  u <> "" ->
  getUserId sdk = None ->
  isSubscribed (getOneSignalStatus w) = true
  /\ userId (getOneSignalStatus w) = Some u
  /\ getOneSignalUserId w = Some u
  /\ posted
       (sendOneSignalNotification w new_Notification now title message data
          reply) = None.
Proof.
  intros Hsdk Hperm Huser Hoid Hps Hid Hasync Hu Hlegacy.
  assert (subscriber_id sdk = Returns (Some u)) as Hsub.
  { unfold subscriber_id. now rewrite Huser, Hoid, Hps, Hid, Hasync. }
  assert (known_id sdk = Returns None) as Hknown.
  { unfold known_id. now rewrite Huser, Hoid, Hps, Hid, Hlegacy. }
  split; [|split; [|split]].
  - unfold getOneSignalStatus. rewrite Hsdk, Hperm. simpl.
    apply subscribed_value. right. eauto.
  - unfold getOneSignalStatus. rewrite Hsdk, Hperm. simpl.
    unfold read_userId. now rewrite Hsub.
  - rewrite (getOneSignalUserId_read w sdk Hsdk). unfold read_userId.
    now rewrite Hsub.
  - unfold sendOneSignalNotification. rewrite Hsdk, Hknown. simpl.
    now destruct (fallback_spec w new_Notification None).
Qed.

Ltac members :=
  solve [repeat split; intros;
         rewrite ?elem_of_app, ?elem_of_cons, ?elem_of_nil in *;
         intuition (congruence || eauto)].

(** The actions of the subscription step and of the prompts. *)
Lemma subscription_step_actions (sdk : Sdk) (m : Methods) :
  NoDup (subscription_step sdk m).1
  /\ Forall (fun a => a ∈ [OptIn; SetOptedIn; AskSdkPermission; Login])
       (subscription_step sdk m).1.
Proof.
  unfold subscription_step.
  destruct (User sdk) as [user|];
    [destruct (PushSubscription user), (pushSubscription user)|];
    destruct (optIn m) as [r|]; cbn;
    try (split; [repeat constructor; members|repeat constructor; members]).
  all: destruct (Notifications m) as [[[[]|]|]|], (login m) as [l|]; simpl;
    (split; [repeat constructor; members|repeat constructor; members]).
Qed.

Lemma prompt_step_actions (m : Methods) :
  NoDup (prompt_step m).1
  /\ Forall (fun a => a ∈ [NativePrompt; SlidedownPrompt]) (prompt_step m).1
  /\ (SlidedownPrompt ∈ (prompt_step m).1 -> showNativePrompt m = None).
Proof.
  unfold prompt_step.
  destruct (showNativePrompt m) as [r|]; simpl.
  { split; [repeat constructor; members|].
    split; [repeat constructor; members|]. members. }
  destruct (showSlidedownPrompt m) as [r|]; simpl;
    (split; [repeat constructor; members|]);
    (split; [repeat constructor; members|reflexivity]).
Qed.

(** From the step on, the outcome does not read the SDK again. *)
Lemma subscribe_from_step_result (s : Subscribing) (sdk : Sdk)
    (asked : list Action) :
  let r := subscribe_from_step s sdk asked in
  (result r = true <-> checked r = Some (last_check (final s)))
  /\ (result r = false <-> checked r = None)
  /\ exists acts prompts,
       actions r = asked ++ acts ++ prompts
       /\ NoDup (acts ++ prompts)
       /\ Forall (fun a => a ∈ [OptIn; SetOptedIn; AskSdkPermission; Login;
                                NativePrompt; SlidedownPrompt])
            (acts ++ prompts)
       /\ (SlidedownPrompt ∈ acts ++ prompts -> showNativePrompt (methods s) = None).
Proof.
  cbv zeta. unfold subscribe_from_step.
  destruct (subscription_step_actions sdk (methods s)) as (Hnd & Hall).
  destruct (prompt_step_actions (methods s)) as (Hnd' & Hall' & Hslide).
  assert (NoDup ((subscription_step sdk (methods s)).1
                 ++ (prompt_step (methods s)).1)) as Hboth.
  { apply NoDup_app. split; [exact Hnd|]. split; [|exact Hnd'].
    intros a Ha Ha'.
    rewrite Forall_forall in Hall, Hall'.
    specialize (Hall a Ha). specialize (Hall' a Ha').
    members. }
  assert (Forall (fun a => a ∈ [OptIn; SetOptedIn; AskSdkPermission; Login;
                                NativePrompt; SlidedownPrompt])
            ((subscription_step sdk (methods s)).1
             ++ (prompt_step (methods s)).1)) as Hin.
  { apply Forall_app. split.
    - eapply Forall_impl; [exact Hall|]. intros a Ha. members.
    - eapply Forall_impl; [exact Hall'|]. intros a Ha. members. }
  assert (SlidedownPrompt ∈ (subscription_step sdk (methods s)).1
                            ++ (prompt_step (methods s)).1
          -> showNativePrompt (methods s) = None) as Hs.
  { intros [Ha|Ha]%elem_of_app; [|now apply Hslide].
    rewrite Forall_forall in Hall. specialize (Hall _ Ha). members. }
  destruct (subscription_step sdk (methods s)) as [acts [[]|]]; simpl in *.
  - split; [tauto|]. split; [split; discriminate|].
    exists acts, []. rewrite app_nil_r. split; [reflexivity|].
    split; [exact Hnd|]. split.
    + eapply Forall_impl; [exact Hall|]. intros a Ha. members.
    + intros Ha. apply Hs, elem_of_app. now left.
  - destruct (prompt_step (methods s)) as [prompts [[]|]]; simpl in *.
    + split; [tauto|]. split; [split; discriminate|].
      exists acts, prompts. auto.
    + split; [split; discriminate|]. split; [tauto|].
      exists acts, prompts. auto.
Qed.

(** X23: [subscribeOneSignal] decides its answer before the last check:
    whatever the SDK reports after the subscription step, also neither an
    opt-in flag nor an id, the call returns what it would have returned,
    after the same actions; once the last check is reached the answer is
    true. *)
Theorem last_check_changes_nothing (s : Subscribing) (mid' final' : Sdk) :
  let s' := {| page := page s;
               methods := methods s;
               Notification_requestPermission := Notification_requestPermission s;
               mid := mid';
               final := final' |} in
  result (subscribeOneSignal s') = result (subscribeOneSignal s)
  /\ actions (subscribeOneSignal s') = actions (subscribeOneSignal s)
  /\ (forall found, checked (subscribeOneSignal s) = Some found ->
      found = last_check (final s) /\ result (subscribeOneSignal s) = true).
Proof.
  cbv zeta.
  assert (forall sdk asked,
             let s' := {| page := page s;
                          methods := methods s;
                          Notification_requestPermission :=
                            Notification_requestPermission s;
                          mid := mid';
                          final := final' |} in
             result (subscribe_from_step s' sdk asked)
             = result (subscribe_from_step s sdk asked)
             /\ actions (subscribe_from_step s' sdk asked)
                = actions (subscribe_from_step s sdk asked)) as Hsame.
  { intros sdk asked. cbv zeta. unfold subscribe_from_step. cbn [methods].
    destruct (subscription_step sdk (methods s)) as [acts [[]|]];
      [split; reflexivity|].
    destruct (prompt_step (methods s)) as [prompts [[]|]];
      split; reflexivity. }
  assert (forall sdk asked found,
             checked (subscribe_from_step s sdk asked) = Some found ->
             found = last_check (final s)
             /\ result (subscribe_from_step s sdk asked) = true) as Hchk.
  { intros sdk asked found Hf.
    destruct (subscribe_from_step_result s sdk asked) as (Ht & Hn & _).
    destruct (result (subscribe_from_step s sdk asked)).
    - split; [|reflexivity]. destruct Ht as [Ht _].
      rewrite (Ht eq_refl) in Hf. congruence.
    - destruct Hn as [Hn _]. rewrite (Hn eq_refl) in Hf. discriminate. }
  unfold subscribeOneSignal. cbn [page Notification_requestPermission].
  destruct (OneSignal (page s)) as [sdk|];
    [|repeat split; discriminate].
  destruct (match isPushNotificationsEnabled sdk with
            | Some (Returns b) => b | _ => false end);
    [repeat split; discriminate|].
  destruct (Notification_permission (page s)) as [p|];
    [|repeat split; discriminate].
  destruct (String.eqb p "granted").
  { destruct (Hsame sdk []) as [H1 H2]. split; [exact H1|].
    split; [exact H2|]. apply Hchk. }
  destruct (Notification_requestPermission s) as [permission|];
    [|repeat split; discriminate].
  destruct (String.eqb permission "granted");
    [|repeat split; discriminate].
  destruct (Hsame sdk [AskBrowserPermission]) as [H1 H2]. split; [exact H1|].
  split; [exact H2|]. apply Hchk.
Qed.

(** X24: what [subscribeOneSignal] asks for. A user the SDK reports as
    subscribed is asked for nothing. Nothing is asked twice. The SDK is
    asked to subscribe or to prompt only once the browser's permission is
    granted, either beforehand or in answer to the one request the call
    makes for it; and the slidedown prompt is used only when the SDK has
    no native prompt. *)
Theorem subscribe_actions (s : Subscribing) :
  let r := subscribeOneSignal s in
  (forall sdk, OneSignal (page s) = Some sdk ->
               isPushNotificationsEnabled sdk = Some (Returns true) ->
               actions r = [] /\ result r = true)
  /\ NoDup (actions r)
  /\ (forall a, a ∈ actions r -> a <> AskBrowserPermission ->
      Notification_permission (page s) = Some "granted"
      \/ (AskBrowserPermission ∈ actions r
          /\ Notification_requestPermission s = Returns "granted"))
  /\ (AskBrowserPermission ∈ actions r ->
      exists p, Notification_permission (page s) = Some p /\ p <> "granted")
  /\ (SlidedownPrompt ∈ actions r -> showNativePrompt (methods s) = None).
Proof.
  cbv zeta. unfold subscribeOneSignal.
  destruct (OneSignal (page s)) as [sdk|]; simpl.
  2: { split; [discriminate|]. split; [constructor|]. members. }
  destruct (isPushNotificationsEnabled sdk) as [[[|]|]|] eqn:Henabled; simpl.
  1: { split; [auto|]. split; [constructor|]. members. }
  all: split; [intros ? [= <-] H; congruence|].
  all: destruct (Notification_permission (page s)) as [p|]; simpl;
    [|split; [constructor|]; members].
  all: destruct (String.eqb_spec p "granted") as [->|Hp].
  all: try (destruct (subscribe_from_step_result s sdk [])
              as (_ & _ & acts & prompts & -> & Hnd & Hall & Hslide);
            simpl; split; [exact Hnd|]; split; [auto|];
            split; [|exact Hslide];
            intros Ha; rewrite Forall_forall in Hall;
            specialize (Hall _ Ha); members).
  all: destruct (Notification_requestPermission s) as [permission|]; simpl;
    [|split; [repeat constructor; members|];
      split; [members|]; split; [eauto|members]].
  all: destruct (String.eqb_spec permission "granted") as [->|Hperm]; simpl;
    [|split; [repeat constructor; members|];
      split; [members|]; split; [eauto|members]].
  all: destruct (subscribe_from_step_result s sdk [AskBrowserPermission])
         as (_ & _ & acts & prompts & -> & Hnd & Hall & Hslide);
    simpl; rewrite Forall_forall in Hall.
  all: split;
    [constructor; [|exact Hnd]; intros Ha; specialize (Hall _ Ha); members|].
  all: split; [intros a _ _; right; split; [members|reflexivity]|].
  all: split; [eauto|].
  all: intros [Ha|Ha]%elem_of_cons; [discriminate|now apply Hslide].
Qed.

End OneSignalClientFacts.

(** ** More worked examples *)

Module MoreExamples.

Import Spec SpecMore Samples MoreSamples.
Import RegistryMore DispatchMore ListingFacts RelayFacts ClientFacts
  OneSignalClientFacts.

(** Re-registering the endpoint of [subA] leaves the records of [subB]. *)
Lemma subscribe_lookup_and_frame_witness :
  endpoint subA' <> ""
  /\ (exists i,
         list_find (fun sub => endpoint sub = endpoint subA')
           (subscribe (Some subA') [subB; subA]).2 = Some (i, subA'))
  /\ forall e,
       e <> endpoint subA' ->
       filter (fun sub => endpoint sub = e) (subscribe (Some subA') [subB; subA]).2
       = filter (fun sub => endpoint sub = e) [subB; subA].
Proof.
  split; [discriminate|].
  apply (subscribe_lookup_and_frame [subB; subA] subA'). discriminate.
Defined.

Lemma reachable_two_subscriptions :
  reachable (subscribe (Some subB) (subscribe (Some subA) []).2).2.
Proof. apply reach_subscribe, reach_subscribe, reach_start. Defined.

(** The registry after two subscriptions. *)
Lemma reachable_registry_keys_witness :
  reachable (subscribe (Some subB) (subscribe (Some subA) []).2).2
  /\ NoDup (endpoint <$> (subscribe (Some subB) (subscribe (Some subA) []).2).2)
  /\ Forall (fun s => endpoint s <> "")
       (subscribe (Some subB) (subscribe (Some subA) []).2).2.
Proof.
  split; [exact reachable_two_subscriptions|].
  exact (reachable_registry_keys _ reachable_two_subscriptions).
Defined.

Lemma b_is_gone_by_subscription n m s p q :
  Dispatch.sendNotification b_is_gone n s p
  = Dispatch.sendNotification b_is_gone m s q.
Proof. reflexivity. Defined.

(** After the dispatch that drops [subB], a second one keeps [subA]. *)
Lemma second_dispatch_removes_nothing_witness :
  (forall n m s p q,
      Dispatch.sendNotification b_is_gone n s p
      = Dispatch.sendNotification b_is_gone m s q)
  /\ exists resp,
       Dispatch.send_notification ascii_runtime b_is_gone test_push [subA; subB]
       = Some (resp, [subA], [subA; subB])
       /\ exists resp',
            Dispatch.send_notification ascii_runtime b_is_gone test_push [subA]
            = Some (resp', [subA], [subA]).
Proof.
  split; [exact b_is_gone_by_subscription|].
  eexists. split; [vm_compute; reflexivity|].
  eapply (second_dispatch_removes_nothing ascii_runtime b_is_gone test_push
            test_push [subA; subB]);
    [exact b_is_gone_by_subscription|vm_compute; reflexivity].
Defined.


(** A notification for user 42 that OneSignal accepts. *)
Lemma onesignal_send_outcome_witness :
  Relay.dm_userId direct_to_42 = Some "user-42" /\ "user-42" <> ""
  /\ exists payload,
       (Relay.onesignal_send ascii_runtime accepting direct_to_42).2
       = [JObj payload]
       /\ assoc "include_player_ids" payload = Some (JArr [JStr "user-42"])
       /\ assoc "included_segments" payload = None
       /\ (status (Relay.onesignal_send ascii_runtime accepting direct_to_42).1
           = 200 <->
           exists result id,
             Rules.fetch accepting (JSON_stringify ascii_runtime (JObj payload))
             = Rules.Reply true result
             /\ get "id" result = Some id /\ truthy id = true)
       /\ (status (Relay.onesignal_send ascii_runtime accepting direct_to_42).1
           = 200
           \/ status (Relay.onesignal_send ascii_runtime accepting direct_to_42).1
              = 500).
Proof.
  split; [reflexivity|]. split; [discriminate|].
  apply (proj2 (onesignal_send_outcome ascii_runtime accepting direct_to_42)
           "user-42"); [reflexivity|discriminate].
Defined.

Lemma nobody_listening_no_id id :
  get "id" no_recipients = Some id -> truthy id = false.
Proof. intros [= <-]. reflexivity. Defined.

(** No recipient is subscribed: the relays fail, the signal is notified. *)
Lemma accepted_without_id_witness :
  (forall body, Rules.fetch nobody_listening body = Rules.Reply true no_recipients)
  /\ (forall id, get "id" no_recipients = Some id -> truthy id = false)
  /\ ~ below (Rules.ts_confidence (signal 75)) (of_Z 75)
  /\ status (Relay.onesignal_broadcast ascii_runtime nobody_listening
               broadcast_all).1 = 500
  /\ status (Relay.onesignal_send ascii_runtime nobody_listening
               direct_to_42).1 = 500
  /\ status (Rules.trading_signal ascii_runtime nobody_listening
               (signal 75)).1 = 200
  /\ get "notified"
       (content (Rules.trading_signal ascii_runtime nobody_listening
                   (signal 75)).1)
     = Some (JBool true).
Proof.
  split; [reflexivity|].
  split; [exact nobody_listening_no_id|].
  split; [exact Examples.not_below_75_75|].
  apply (accepted_without_id ascii_runtime nobody_listening no_recipients
           (signal 75) broadcast_all direct_to_42);
    [reflexivity|exact nobody_listening_no_id|exact Examples.not_below_75_75
    |reflexivity].
Defined.


(** The page of user 42 sends a test that OneSignal accepts. *)
Lemma onesignal_test_end_to_end_witness :
  let reply :=
    Client.delivered "OK"
      (Relay.onesignal_send ascii_runtime accepting direct_to_42).1 in
  let sending :=
    OneSignalClient.sendOneSignalNotification flag_unreadable
      (OneSignal.Returns tt) (clock 7) "Hi" "There" [] reply in
  OneSignalClient.posted sending = Some direct_to_42
  /\ OneSignalClient.returned sending = true
  /\ OneSignalClient.local_shown sending = false.
Proof.
  cbv zeta. split; [reflexivity|].
  destruct (onesignal_test_end_to_end ascii_runtime accepting flag_unreadable
              (OneSignal.Returns tt) (clock 7) "Hi" "There" [] "OK"
              (Client.delivered "OK"
                 (Relay.onesignal_send ascii_runtime accepting direct_to_42).1)
              direct_to_42 eq_refl eq_refl)
    as (u & payload & _ & _ & _ & Hcalls & _ & _ & _ & Hacc & _).
  apply Hacc. injection Hcalls as <-.
  exists (JObj [("id", JStr "n-1"); ("recipients", JNat 3)]), (JStr "n-1").
  split; [reflexivity|]. split; reflexivity.
Defined.

(** The status shows [sub-7]; the test notification is not posted. *)
Lemma id_from_getIdAsync_is_not_sent_witness :
  OneSignal.isSubscribed (OneSignal.getOneSignalStatus page_async_id) = true
  /\ OneSignal.userId (OneSignal.getOneSignalStatus page_async_id)
     = Some "sub-7"
  /\ OneSignalClient.getOneSignalUserId page_async_id = Some "sub-7"
  /\ OneSignalClient.posted
       (OneSignalClient.sendOneSignalNotification page_async_id
          (OneSignal.Returns tt) (clock 0) "Hi" "There" []
          (Client.NetworkError "offline")) = None.
Proof.
  apply (id_from_getIdAsync_is_not_sent page_async_id sdk_async_id
           user_async_id async_id "sub-7" "granted");
    (reflexivity || discriminate).
Defined.

(** The SDK reports neither flag nor id at the end, and the call returns
    true. *)
Lemma last_check_changes_nothing_witness :
  OneSignalClient.checked (OneSignalClient.subscribeOneSignal silent_subscription)
  = Some (false, None)
  /\ (false, None) = OneSignalClient.last_check sdk_silent
  /\ OneSignalClient.result
       (OneSignalClient.subscribeOneSignal silent_subscription) = true
  /\ OneSignalClient.actions
       (OneSignalClient.subscribeOneSignal silent_subscription)
     = [OneSignalClient.AskBrowserPermission; OneSignalClient.Login].
Proof.
  split; [reflexivity|].
  destruct (last_check_changes_nothing silent_subscription sdk_silent sdk_silent)
    as (_ & _ & H).
  destruct (H (false, None) eq_refl) as [H1 H2].
  split; [exact H1|]. split; [exact H2|reflexivity].
Defined.

End MoreExamples.
